(** * TripSense AI: the session-gated CRUD pages, embedded and verified

    The page controllers of the application (Home, PlanTrip, Trips, Diary,
    Discover) are React components whose handlers talk to three external
    collaborators through the Supabase client: the auth provider, the data
    store and the recommendation function.  Each handler is embedded as a
    program in a small effect monad: awaited client calls are nodes whose
    continuation receives whatever the collaborator answers, notifications
    and navigation are recorded in a trace, and the [useState] setters
    update the page state.  Theorems quantify over every environment, that
    is over every sequence of answers the collaborators may give. *)

From Stdlib Require Import ZArith List String Ascii Bool Lia.
Import ListNotations.
Local Open Scope string_scope.
Local Open Scope Z_scope.

Set Implicit Arguments.

(* ================================================================== *)
(** * JavaScript values *)

(** An error object, or any other value that is neither [null] nor
    [undefined]; the handlers only read its [.message], which is taken to be
    empty when the property is absent. *)
Record Error : Type := mkError { message : string }.

(** A value a promise is rejected with, or that is thrown: an error
    object, [null] or [undefined]. *)
Inductive thrown : Type :=
| Thrown (e : Error)
| ThrownNull
| ThrownUndefined.

Coercion Thrown : Error >-> thrown.

(** The [TypeError] raised by reading [property] of [null] or [undefined],
    with the message as V8 words it; other engines word it differently. *)
Definition type_error (value property : string) : Error :=
  mkError ("Cannot read properties of " ++ value
           ++ " (reading '" ++ property ++ "')").

(** The numbers [calculateDays] can produce: an integer or [NaN]. *)
Inductive jsnum : Type :=
| NaN
| Num (z : Z).

(** Values placed in request bodies.  [JParseFloat s] stands for the double
    [parseFloat(s)], which is left uninterpreted. *)
Inductive jsval : Type :=
| JStr (s : string)
| JNum (n : jsnum)
| JParseFloat (s : string)
| JStrs (l : list string).

(** An object literal, fields in source order. *)
Definition jsobject : Type := list (string * jsval).

(** [!s] on a string. *)
Definition falsy (s : string) : bool :=
  match s with
  | EmptyString => true
  | String _ _ => false
  end.

(** [a || b] on strings. *)
Definition or_else (a b : string) : string :=
  if falsy a then b else a.

(** [data || []]. *)
Definition or_empty {A : Type} (data : option (list A)) : list A :=
  match data with
  | Some l => l
  | None => []
  end.

(** [n <= 0] on numbers: every comparison with [NaN] is false. *)
Definition js_le0 (n : jsnum) : bool :=
  match n with
  | NaN => false
  | Num z => z <=? 0
  end.

(* ================================================================== *)
(** * Dates: [new Date(s).getTime()] on date-only strings

    The date-only form [YYYY-MM-DD] of the ECMAScript date-time string
    format is read as midnight UTC of the day.  What an engine makes of any
    other string (a year of more than four digits, which a date input can
    hold, or a form its lenient parser accepts) is implementation-defined
    and is not modelled: such a string is given the time value [NaN] here,
    which is what every engine gives to a string it cannot read, such as one
    with no digit in it.  Statements about day counts name the strings they
    cover. *)

Module Date.

Definition ms_per_day : Z := 1000 * 60 * 60 * 24.

Definition digit (c : ascii) : option Z :=
  let n := Z.of_nat (nat_of_ascii c) in
  if (48 <=? n) && (n <=? 57) then Some (n - 48) else None.

Fixpoint number (cs : list ascii) (acc : Z) : option Z :=
  match cs with
  | [] => Some acc
  | c :: cs' =>
      match digit c with
      | Some d => number cs' (10 * acc + d)
      | None => None
      end
  end.

Definition is_leap (y : Z) : bool :=
  (y mod 4 =? 0) && (negb (y mod 100 =? 0) || (y mod 400 =? 0)).

Definition days_in_month (y m : Z) : Z :=
  if m =? 2 then (if is_leap y then 29 else 28)
  else if (m =? 4) || (m =? 6) || (m =? 9) || (m =? 11) then 30
  else 31.

(** Days of the year that precede the first of month [m]. *)
Definition days_before_month (y m : Z) : Z :=
  (if m =? 1 then 0 else if m =? 2 then 31 else if m =? 3 then 59
   else if m =? 4 then 90 else if m =? 5 then 120 else if m =? 6 then 151
   else if m =? 7 then 181 else if m =? 8 then 212 else if m =? 9 then 243
   else if m =? 10 then 273 else if m =? 11 then 304 else 334)
  + (if is_leap y && (2 <? m) then 1 else 0).

(** Days of the proleptic Gregorian calendar that precede January 1st
    of year [y], counted from January 1st of year 1. *)
Definition days_before_year (y : Z) : Z :=
  365 * (y - 1) + (y - 1) / 4 - (y - 1) / 100 + (y - 1) / 400.

Record civil : Type := mkCivil { year : Z; month : Z; day : Z }.

Definition valid (c : civil) : bool :=
  (0 <=? year c) && (year c <=? 9999)
  && (1 <=? month c) && (month c <=? 12)
  && (1 <=? day c) && (day c <=? days_in_month (year c) (month c)).

(** Day number since 1970-01-01. *)
Definition day_number (c : civil) : Z :=
  days_before_year (year c) + days_before_month (year c) (month c)
  + (day c - 1) - days_before_year 1970.

(** The date-only form [YYYY-MM-DD]. *)
Definition parse (s : string) : option civil :=
  match list_ascii_of_string s with
  | [y1; y2; y3; y4; dash1; m1; m2; dash2; d1; d2] =>
      if Ascii.eqb dash1 "-" && Ascii.eqb dash2 "-" then
        match number [y1; y2; y3; y4] 0, number [m1; m2] 0, number [d1; d2] 0 with
        | Some y, Some m, Some d =>
            let c := mkCivil y m d in
            if valid c then Some c else None
        | _, _, _ => None
        end
      else None
  | _ => None
  end.

(** [new Date(s).getTime()]: milliseconds since the epoch, or [NaN]. *)
Definition getTime (s : string) : jsnum :=
  match parse s with
  | Some c => Num (ms_per_day * day_number c)
  | None => NaN
  end.

(** Calendar order on dates. *)
Definition le (a b : civil) : Prop :=
  year a < year b
  \/ (year a = year b /\ (month a < month b
                          \/ (month a = month b /\ day a <= day b))).

End Date.

(** [Math.ceil(a / b)] for integral [a] and positive integral [b]. *)
Definition ceil_div (a b : Z) : Z := - ((- a) / b).

(** [Math.ceil((e - s) / d)] on numbers; [NaN] is contagious. *)
Definition js_ceil_diff_div (e s : jsnum) (d : Z) : jsnum :=
  match e, s with
  | Num e', Num s' => Num (ceil_div (e' - s') d)
  | _, _ => NaN
  end.


(* ================================================================== *)
(** * Records of the external collaborators *)

(** The authenticated user; [full_name] is [user_metadata.full_name]. *)
Module User.
Record t : Type := mk { id : string; email : string; full_name : string }.
End User.

Module Session.
Record t : Type := mk { user : User.t }.
End Session.

(** [interface Trip] of the Trips page; the budget is kept as the numeric
    literal the store returned. *)
Module Trip.
Record t : Type := mk {
  id : string;
  destination : string;
  start_date : string;
  end_date : string;
  budget : string;
  travel_type : string;
  status : string;
  notes : string
}.
End Trip.

(** [interface DiaryEntry] of the Diary page. *)
Module DiaryEntry.
Record t : Type := mk {
  id : string;
  title : string;
  content : string;
  entry_date : string;
  location : string;
  created_at : string
}.
End DiaryEntry.

(** [interface Destination] of the Discover page. *)
Module Destination.
Record t : Type := mk {
  id : string;
  destination_name : string;
  location : string;
  description : string;
  category : string;
  notes : string;
  created_at : string
}.
End Destination.

(** The three tables the pages name in [supabase.from(...)], and the
    TypeScript interface each page gives to its rows. *)
Module Table.
Inductive t : Type :=
| trips
| diary_entries
| saved_destinations.

Definition name (tb : t) : string :=
  match tb with
  | trips => "trips"
  | diary_entries => "diary_entries"
  | saved_destinations => "saved_destinations"
  end.

Definition row (tb : t) : Type :=
  match tb with
  | trips => Trip.t
  | diary_entries => DiaryEntry.t
  | saved_destinations => Destination.t
  end.

Definition row_id {tb : t} : row tb -> string :=
  match tb with
  | trips => Trip.id
  | diary_entries => DiaryEntry.id
  | saved_destinations => Destination.id
  end.

Definition eqb (a b : t) : bool :=
  match a, b with
  | trips, trips => true
  | diary_entries, diary_entries => true
  | saved_destinations, saved_destinations => true
  | _, _ => false
  end.
End Table.

(* ================================================================== *)
(** * Requests, answers and effects *)

(** The awaited calls of the Supabase client, with the arguments the pages
    pass. *)
Inductive request : Type :=
| AuthGetUser                      (* supabase.auth.getUser() *)
| AuthGetSession                   (* supabase.auth.getSession() *)
| AuthSignOut                      (* supabase.auth.signOut() *)
| Select (t : Table.t) (eq_column eq_value : string)
         (order_column : string) (ascending : bool)
                                   (* from(t).select('*').eq(c, v).order(o, {ascending}) *)
| Insert (t : Table.t) (values : jsobject)
                                   (* from(t).insert(values) *)
| Delete (t : Table.t) (eq_column eq_value : string)
                                   (* from(t).delete().eq(c, v) *)
| FunctionsInvoke (fn : string) (body : jsobject).
                                   (* functions.invoke(fn, { body }) *)

(** The [{ data, error }] pair a call resolves to. *)
Record response (D : Type) : Type := mkResponse {
  data : option D;
  error : option Error
}.

(** What each call resolves to, restricted to the parts the pages read:
    [data.user], [data.session], [error], [{data, error}], and for the
    recommendation function [data.recommendations], a string by the
    function's contract [{recommendations: string}]; its [data] is [None]
    when the function answers [null]. *)
Definition reply (r : request) : Type :=
  match r with
  | AuthGetUser => option User.t
  | AuthGetSession => option Session.t
  | AuthSignOut => option Error
  | Select t _ _ _ _ => response (list (Table.row t))
  | Insert _ _ => option Error
  | Delete _ _ _ => option Error
  | FunctionsInvoke _ _ => response string
  end.

(** A promise settles: it is fulfilled with a value or rejected. *)
Inductive settled (X : Type) : Type :=
| Fulfilled (x : X)
| Rejected (e : thrown).
Arguments Rejected {X} e.

(** Effects that are not awaited. *)
Inductive action : Type :=
| ToastError (m : string)          (* toast.error(m) *)
| ToastSuccess (m : string)        (* toast.success(m) *)
| Navigate (path : string)         (* navigate(path) *)
| ConsoleError (label : string) (e : thrown).
                                   (* console.error(label, e) *)

Inductive event : Type :=
| Called (r : request)
| Did (a : action).

(** One run of the collaborators: the answer to the [n]-th awaited call. *)
Definition oracle : Type := forall r : request, settled (reply r).
Definition environment : Type := nat -> oracle.

(** How a handler ends: it returns, or an exception escapes it. *)
Inductive completion (A : Type) : Type :=
| Returned (a : A)
| Uncaught (e : thrown).
Arguments Uncaught {A} e.

(* ================================================================== *)
(** * The handler monad *)

Section Prog.

(** The state of the page: the values held by its [useState] hooks. *)
Variable St : Type.

Inductive prog (A : Type) : Type :=
| Ret (a : A)
| Throw (e : thrown)
| Await (r : request) (k : settled (reply r) -> prog A)
| Do (a : action) (k : prog A)
| Update (f : St -> St) (k : prog A).
Arguments Throw {A} e.

Fixpoint bind {A B : Type} (p : prog A) (f : A -> prog B) : prog B :=
  match p with
  | Ret a => f a
  | Throw e => Throw e
  | Await r k => Await r (fun x => bind (k x) f)
  | Do a k => Do a (bind k f)
  | Update g k => Update g (bind k f)
  end.

(** [await call]: a rejected promise throws at the [await]. *)
Definition await (r : request) : prog (reply r) :=
  Await r (fun s => match s with
                    | Fulfilled x => Ret x
                    | Rejected e => Throw e
                    end).

Definition perform (a : action) : prog unit := Do a (Ret tt).
Definition set (f : St -> St) : prog unit := Update f (Ret tt).

(** [try { p } catch (e) { h e }]. *)
Fixpoint try_catch {A : Type} (p : prog A) (h : thrown -> prog A) : prog A :=
  match p with
  | Ret a => Ret a
  | Throw e => h e
  | Await r k => Await r (fun x => try_catch (k x) h)
  | Do a k => Do a (try_catch k h)
  | Update g k => Update g (try_catch k h)
  end.

(** [try { p } finally { f }]. *)
Fixpoint try_finally {A : Type} (p : prog A) (f : prog unit) : prog A :=
  match p with
  | Ret a => bind f (fun _ => Ret a)
  | Throw e => bind f (fun _ => Throw e)
  | Await r k => Await r (fun x => try_finally (k x) f)
  | Do a k => Do a (try_finally k f)
  | Update g k => Update g (try_finally k f)
  end.

Record outcome (A : Type) : Type := mkOutcome {
  final : St;
  trace : list event;
  calls : nat;
  result : completion A
}.

(** Runs a handler from state [st], the environment answering the awaited
    calls; [n] is the number of calls already answered. *)
Fixpoint run {A : Type} (env : environment) (n : nat) (p : prog A) (st : St)
  : outcome A :=
  match p with
  | Ret a => mkOutcome st [] n (Returned a)
  | Throw e => mkOutcome st [] n (Uncaught e)
  | Await r k =>
      let o := run env (S n) (k (env n r)) st in
      mkOutcome (final o) (Called r :: trace o) (calls o) (result o)
  | Do a k =>
      let o := run env n k st in
      mkOutcome (final o) (Did a :: trace o) (calls o) (result o)
  | Update f k => run env n k (f st)
  end.

End Prog.

Arguments Ret {St A} a.
Arguments Throw {St A} e.
Arguments Await {St A} r k.
Arguments Do {St A} a k.
Arguments Update {St A} f k.
Arguments await {St} r.
Arguments perform {St} a.
Arguments set {St} f.

Notation "x <- p ;; q" := (bind p (fun x => q))
  (at level 61, p at next level, right associativity).
Notation "p ;; q" := (bind p (fun _ => q))
  (at level 61, right associativity).

(** [if (error) throw error]. *)
Definition throw_if {St : Type} (error : option Error) : prog St unit :=
  match error with
  | Some e => Throw e
  | None => Ret tt
  end.

(** The helpers of the notification library and the router. *)
Definition toast_error {St : Type} (m : string) : prog St unit :=
  perform (ToastError m).
Definition toast_success {St : Type} (m : string) : prog St unit :=
  perform (ToastSuccess m).
Definition navigate {St : Type} (path : string) : prog St unit :=
  perform (Navigate path).
Definition console_error {St : Type} (label : string) (e : thrown) : prog St unit :=
  perform (ConsoleError label e).

(** [error.message] in a [catch] block: reading a property of [null] or
    [undefined] throws. *)
Definition read_message {St : Type} (error : thrown) : prog St string :=
  match error with
  | Thrown e => Ret (message e)
  | ThrownNull => Throw (type_error "null" "message")
  | ThrownUndefined => Throw (type_error "undefined" "message")
  end.

(* ================================================================== *)
(** * The Trips page *)

Module Trips.

Record State : Type := mkState {
  trips : list Trip.t;
  loading : bool
}.

Definition setTrips (v : list Trip.t) (s : State) : State :=
  mkState v (loading s).
Definition setLoading (v : bool) (s : State) : State :=
  mkState (trips s) v.

(** [useState] initial values. *)
Definition initial : State := mkState [] true.

Definition fetchTrips : prog State unit :=
  try_finally
    (try_catch
       (user <- await AuthGetUser ;;
        match user with
        | None => navigate "/auth"
        | Some user =>
            r <- await (Select Table.trips "user_id" (User.id user)
                               "start_date" false) ;;
            throw_if (error r) ;;
            set (setTrips (or_empty (data r)))
        end)
       (fun error =>
          console_error "Error fetching trips:" error ;;
          toast_error "Failed to load trips"))
    (set (setLoading false)).

Definition deleteTrip (st : State) (id : string) : prog State unit :=
  try_catch
    (error <- await (Delete Table.trips "id" id) ;;
     throw_if error ;;
     toast_success "Trip deleted" ;;
     set (setTrips (filter (fun trip => negb (Trip.id trip =? id)%string)
                           (trips st))))
    (fun error =>
       console_error "Error deleting trip:" error ;;
       toast_error "Failed to delete trip").

(** [useEffect(() => { fetchTrips(); }, [])]. *)
Definition onMount : prog State unit := fetchTrips.

End Trips.

(* ================================================================== *)
(** * The Diary page *)

Module Diary.

Record State : Type := mkState {
  entries : list DiaryEntry.t;
  loading : bool;
  dialogOpen : bool;
  title : string;
  content : string;
  location : string;
  entryDate : string
}.

Definition setEntries (v : list DiaryEntry.t) (s : State) : State :=
  mkState v (loading s) (dialogOpen s) (title s) (content s) (location s)
          (entryDate s).
Definition setLoading (v : bool) (s : State) : State :=
  mkState (entries s) v (dialogOpen s) (title s) (content s) (location s)
          (entryDate s).
Definition setDialogOpen (v : bool) (s : State) : State :=
  mkState (entries s) (loading s) v (title s) (content s) (location s)
          (entryDate s).
Definition setTitle (v : string) (s : State) : State :=
  mkState (entries s) (loading s) (dialogOpen s) v (content s) (location s)
          (entryDate s).
Definition setContent (v : string) (s : State) : State :=
  mkState (entries s) (loading s) (dialogOpen s) (title s) v (location s)
          (entryDate s).
Definition setLocation (v : string) (s : State) : State :=
  mkState (entries s) (loading s) (dialogOpen s) (title s) (content s) v
          (entryDate s).

(** [useState] initial values; [today] is the current date. *)
Definition initial (today : string) : State :=
  mkState [] true false "" "" "" today.

Definition fetchEntries : prog State unit :=
  try_finally
    (try_catch
       (user <- await AuthGetUser ;;
        match user with
        | None => navigate "/auth"
        | Some user =>
            r <- await (Select Table.diary_entries "user_id" (User.id user)
                               "entry_date" false) ;;
            throw_if (error r) ;;
            set (setEntries (or_empty (data r)))
        end)
       (fun error =>
          console_error "Error fetching entries:" error ;;
          toast_error "Failed to load diary entries"))
    (set (setLoading false)).

(** The record inserted by Create Entry. *)
Definition entry_record (st : State) (user : User.t) : jsobject :=
  [ ("user_id", JStr (User.id user));
    ("title", JStr (title st));
    ("content", JStr (content st));
    ("location", JStr (location st));
    ("entry_date", JStr (entryDate st)) ].

Definition createEntry (st : State) : prog State unit :=
  if falsy (title st) || falsy (content st) then
    toast_error "Please fill in title and content"
  else
    try_catch
      (user <- await AuthGetUser ;;
       match user with
       | None => Throw (mkError "Not authenticated")
       | Some user =>
           error <- await (Insert Table.diary_entries (entry_record st user)) ;;
           throw_if error ;;
           toast_success "Entry created!" ;;
           set (setDialogOpen false) ;;
           set (setTitle "") ;;
           set (setContent "") ;;
           set (setLocation "") ;;
           fetchEntries
       end)
      (fun error =>
         console_error "Error creating entry:" error ;;
         msg <- read_message error ;;
         toast_error (or_else msg "Failed to create entry")).

Definition deleteEntry (st : State) (id : string) : prog State unit :=
  try_catch
    (error <- await (Delete Table.diary_entries "id" id) ;;
     throw_if error ;;
     toast_success "Entry deleted" ;;
     set (setEntries (filter (fun entry => negb (DiaryEntry.id entry =? id)%string)
                             (entries st))))
    (fun error =>
       console_error "Error deleting entry:" error ;;
       toast_error "Failed to delete entry").

(** [useEffect(() => { fetchEntries(); }, [])]. *)
Definition onMount : prog State unit := fetchEntries.

End Diary.

(* ================================================================== *)
(** * The Discover page *)

Module Discover.

Record State : Type := mkState {
  destinations : list Destination.t;
  loading : bool;
  dialogOpen : bool;
  name : string;
  location : string;
  description : string;
  category : string
}.

Definition setDestinations (v : list Destination.t) (s : State) : State :=
  mkState v (loading s) (dialogOpen s) (name s) (location s) (description s)
          (category s).
Definition setLoading (v : bool) (s : State) : State :=
  mkState (destinations s) v (dialogOpen s) (name s) (location s)
          (description s) (category s).
Definition setDialogOpen (v : bool) (s : State) : State :=
  mkState (destinations s) (loading s) v (name s) (location s)
          (description s) (category s).
Definition setName (v : string) (s : State) : State :=
  mkState (destinations s) (loading s) (dialogOpen s) v (location s)
          (description s) (category s).
Definition setLocation (v : string) (s : State) : State :=
  mkState (destinations s) (loading s) (dialogOpen s) (name s) v
          (description s) (category s).
Definition setDescription (v : string) (s : State) : State :=
  mkState (destinations s) (loading s) (dialogOpen s) (name s) (location s)
          v (category s).
Definition setCategory (v : string) (s : State) : State :=
  mkState (destinations s) (loading s) (dialogOpen s) (name s) (location s)
          (description s) v.

(** [useState] initial values. *)
Definition initial : State := mkState [] true false "" "" "" "".

Definition fetchDestinations : prog State unit :=
  try_finally
    (try_catch
       (user <- await AuthGetUser ;;
        match user with
        | None => navigate "/auth"
        | Some user =>
            r <- await (Select Table.saved_destinations "user_id"
                               (User.id user) "created_at" false) ;;
            throw_if (error r) ;;
            set (setDestinations (or_empty (data r)))
        end)
       (fun error =>
          console_error "Error fetching destinations:" error ;;
          toast_error "Failed to load destinations"))
    (set (setLoading false)).

(** The record inserted by Save Destination. *)
Definition destination_record (st : State) (user : User.t) : jsobject :=
  [ ("user_id", JStr (User.id user));
    ("destination_name", JStr (name st));
    ("location", JStr (location st));
    ("description", JStr (description st));
    ("category", JStr (category st));
    ("notes", JStr "") ].

Definition saveDestination (st : State) : prog State unit :=
  if falsy (name st) || falsy (location st) then
    toast_error "Please fill in name and location"
  else
    try_catch
      (user <- await AuthGetUser ;;
       match user with
       | None => Throw (mkError "Not authenticated")
       | Some user =>
           error <- await (Insert Table.saved_destinations
                                  (destination_record st user)) ;;
           throw_if error ;;
           toast_success "Destination saved!" ;;
           set (setDialogOpen false) ;;
           set (setName "") ;;
           set (setLocation "") ;;
           set (setDescription "") ;;
           set (setCategory "") ;;
           fetchDestinations
       end)
      (fun error =>
         console_error "Error saving destination:" error ;;
         msg <- read_message error ;;
         toast_error (or_else msg "Failed to save destination")).

Definition deleteDestination (st : State) (id : string) : prog State unit :=
  try_catch
    (error <- await (Delete Table.saved_destinations "id" id) ;;
     throw_if error ;;
     toast_success "Destination removed" ;;
     set (setDestinations
            (filter (fun dest => negb (Destination.id dest =? id)%string)
                    (destinations st))))
    (fun error =>
       console_error "Error deleting destination:" error ;;
       toast_error "Failed to remove destination").

(** [useEffect(() => { fetchDestinations(); }, [])]. *)
Definition onMount : prog State unit := fetchDestinations.

End Discover.

(* ================================================================== *)
(** * The PlanTrip page *)

Module PlanTrip.

Record State : Type := mkState {
  loading : bool;
  destination : string;
  startDate : string;
  endDate : string;
  budget : string;
  travelType : string;
  selectedInterests : list string;
  aiRecommendations : string
}.

Definition setLoading (v : bool) (s : State) : State :=
  mkState v (destination s) (startDate s) (endDate s) (budget s)
          (travelType s) (selectedInterests s) (aiRecommendations s).
Definition setSelectedInterests (f : list string -> list string) (s : State)
  : State :=
  mkState (loading s) (destination s) (startDate s) (endDate s) (budget s)
          (travelType s) (f (selectedInterests s)) (aiRecommendations s).
Definition setAiRecommendations (v : string) (s : State) : State :=
  mkState (loading s) (destination s) (startDate s) (endDate s) (budget s)
          (travelType s) (selectedInterests s) v.

(** [useState] initial values. *)
Definition initial : State := mkState false "" "" "" "" "" [] "".

Definition includes (l : list string) (x : string) : bool :=
  existsb (fun i => (i =? x)%string) l.

Definition toggleInterest (interest : string) : prog State unit :=
  set (setSelectedInterests
         (fun prev =>
            if includes prev interest
            then filter (fun i => negb (i =? interest)%string) prev
            else (prev ++ [interest])%list)).

Definition calculateDays (st : State) : jsnum :=
  if falsy (startDate st) || falsy (endDate st) then Num 0
  else
    let start := Date.getTime (startDate st) in
    let end_ := Date.getTime (endDate st) in
    js_ceil_diff_div end_ start Date.ms_per_day.

(** The body sent to the recommendation function. *)
Definition recommendation_body (st : State) (days : jsnum) : jsobject :=
  [ ("destination", JStr (destination st));
    ("budget", JParseFloat (budget st));
    ("travelType", JStr (travelType st));
    ("interests", JStrs (selectedInterests st));
    ("days", JNum days) ].

Definition handleGetRecommendations (st : State) : prog State unit :=
  if falsy (destination st) || falsy (budget st) || falsy (travelType st)
     || (List.length (selectedInterests st) =? 0)%nat
  then toast_error "Please fill in all fields"
  else
    let days := calculateDays st in
    if js_le0 days then toast_error "End date must be after start date"
    else
      set (setLoading true) ;;
      try_finally
        (try_catch
           (r <- await (FunctionsInvoke "travel-recommendations"
                                        (recommendation_body st days)) ;;
            throw_if (error r) ;;
            match data r with
            | Some recommendations =>
                set (setAiRecommendations recommendations) ;;
                toast_success "AI recommendations generated!"
            | None =>
                (* data is null: reading [data.recommendations] throws *)
                Throw (type_error "null" "recommendations")
            end)
           (fun error =>
              console_error "Error getting recommendations:" error ;;
              msg <- read_message error ;;
              toast_error (or_else msg "Failed to get recommendations")))
        (set (setLoading false)).

(** The record inserted by Save Trip. *)
Definition trip_record (st : State) (user : User.t) : jsobject :=
  [ ("user_id", JStr (User.id user));
    ("destination", JStr (destination st));
    ("start_date", JStr (startDate st));
    ("end_date", JStr (endDate st));
    ("budget", JParseFloat (budget st));
    ("travel_type", JStr (travelType st));
    ("notes", JStr (aiRecommendations st));
    ("status", JStr "planned") ].

Definition handleSaveTrip (st : State) : prog State unit :=
  if falsy (destination st) || falsy (startDate st) || falsy (endDate st)
     || falsy (budget st)
  then toast_error "Please fill in all required fields"
  else
    set (setLoading true) ;;
    try_finally
      (try_catch
         (user <- await AuthGetUser ;;
          match user with
          | None => Throw (mkError "Not authenticated")
          | Some user =>
              error <- await (Insert Table.trips (trip_record st user)) ;;
              throw_if error ;;
              toast_success "Trip saved successfully!" ;;
              navigate "/trips"
          end)
         (fun error =>
            console_error "Error saving trip:" error ;;
            msg <- read_message error ;;
            toast_error (or_else msg "Failed to save trip")))
      (set (setLoading false)).

(** The component registers no effect: mounting it runs nothing. *)
Definition onMount : prog State unit := Ret tt.

End PlanTrip.

(* ================================================================== *)
(** * The Home page *)

Module Index.

Record State : Type := mkState {
  user : option User.t;
  loading : bool
}.

Definition setUser (v : option User.t) (s : State) : State :=
  mkState v (loading s).
Definition setLoading (v : bool) (s : State) : State :=
  mkState (user s) v.

(** [useState] initial values. *)
Definition initial : State := mkState None true.

(** [session?.user ?? null]. *)
Definition session_user (session : option Session.t) : option User.t :=
  match session with
  | Some s => Some (Session.user s)
  | None => None
  end.

(** [supabase.auth.getSession().then(...)] of the mount effect. *)
Definition checkSession : prog State unit :=
  session <- await AuthGetSession ;;
  set (setUser (session_user session)) ;;
  set (setLoading false) ;;
  match session with
  | None => navigate "/auth"
  | Some _ => Ret tt
  end.

(** The callback registered with [supabase.auth.onAuthStateChange]. *)
Definition onAuthStateChange (session : option Session.t) : prog State unit :=
  set (setUser (session_user session)) ;;
  match session with
  | None => navigate "/auth"
  | Some _ => Ret tt
  end.

Definition handleSignOut : prog State unit :=
  error <- await AuthSignOut ;;
  match error with
  | Some _ => toast_error "Failed to sign out"
  | None =>
      toast_success "Signed out successfully" ;;
      navigate "/auth"
  end.

(** The mount effect: the session check.  The effect also registers
    [onAuthStateChange] with the auth provider, which calls it whenever the
    session changes, and unsubscribes on unmount. *)
Definition onMount : prog State unit := checkSession.

End Index.

(* ================================================================== *)
(** * The pages as a family *)

Inductive page : Type :=
| HomePage
| PlanTripPage
| TripsPage
| DiaryPage
| DiscoverPage.

Definition page_state (p : page) : Type :=
  match p with
  | HomePage => Index.State
  | PlanTripPage => PlanTrip.State
  | TripsPage => Trips.State
  | DiaryPage => Diary.State
  | DiscoverPage => Discover.State
  end.

(** What a page runs when it is mounted. *)
Definition onMount (p : page) : prog (page_state p) unit :=
  match p with
  | HomePage => Index.onMount
  | PlanTripPage => PlanTrip.onMount
  | TripsPage => Trips.onMount
  | DiaryPage => Diary.onMount
  | DiscoverPage => Discover.onMount
  end.

(** The pages that hold a list of records. *)
Inductive list_page : Type :=
| ListTrips
| ListDiary
| ListDiscover.

Definition list_state (p : list_page) : Type :=
  match p with
  | ListTrips => Trips.State
  | ListDiary => Diary.State
  | ListDiscover => Discover.State
  end.

Definition table_of (p : list_page) : Table.t :=
  match p with
  | ListTrips => Table.trips
  | ListDiary => Table.diary_entries
  | ListDiscover => Table.saved_destinations
  end.

(** The in-memory list of the page. *)
Definition items (p : list_page) : list_state p -> list (Table.row (table_of p)) :=
  match p with
  | ListTrips => Trips.trips
  | ListDiary => Diary.entries
  | ListDiscover => Discover.destinations
  end.

(** The List routine of the page. *)
Definition fetch (p : list_page) : prog (list_state p) unit :=
  match p with
  | ListTrips => Trips.fetchTrips
  | ListDiary => Diary.fetchEntries
  | ListDiscover => Discover.fetchDestinations
  end.

(** The delete handler of the page. *)
Definition delete (p : list_page) : list_state p -> string -> prog (list_state p) unit :=
  match p with
  | ListTrips => Trips.deleteTrip
  | ListDiary => Diary.deleteEntry
  | ListDiscover => Discover.deleteDestination
  end.

(* ================================================================== *)
(** * Reading traces *)

Definition is_toast_error (ev : event) : bool :=
  match ev with
  | Did (ToastError _) => true
  | _ => false
  end.

Definition is_navigate (path : string) (ev : event) : bool :=
  match ev with
  | Did (Navigate p) => (p =? path)%string
  | _ => false
  end.

(** A request to the data store. *)
Definition is_store_call (ev : event) : bool :=
  match ev with
  | Called (Select _ _ _ _ _) | Called (Insert _ _) | Called (Delete _ _ _) => true
  | _ => false
  end.

Definition is_insert (t : Table.t) (ev : event) : bool :=
  match ev with
  | Called (Insert t' _) => Table.eqb t' t
  | _ => false
  end.

Definition is_invoke (ev : event) : bool :=
  match ev with
  | Called (FunctionsInvoke _ _) => true
  | _ => false
  end.

Definition is_session_query (ev : event) : bool :=
  match ev with
  | Called AuthGetUser | Called AuthGetSession => true
  | _ => false
  end.

(** The requests of a trace, in order. *)
Fixpoint requests (tr : list event) : list request :=
  match tr with
  | [] => []
  | Called r :: tr' => r :: requests tr'
  | Did _ :: tr' => requests tr'
  end.

Definition count (f : event -> bool) (tr : list event) : nat :=
  List.length (filter f tr).

(** Field lookup in an object literal. *)
Fixpoint field (name : string) (o : jsobject) : option jsval :=
  match o with
  | [] => None
  | (k, v) :: o' => if (k =? name)%string then Some v else field name o'
  end.

(* ================================================================== *)
(** * The data store as the pages see it

    The store is an external collaborator.  Its contract, per table, is
    [select * where user_id = X order by F], [insert(record)] and
    [delete where id = X]; a filter that matches no row is not an error. *)

Module Store.

(** A stored row and the user it belongs to. *)
Record stored (t : Table.t) : Type := mkStored {
  owner : string;
  record : Table.row t
}.

Definition database : Type := forall t : Table.t, list (stored t).

Definition empty : database := fun _ => [].

(** [select * where user_id = uid]. *)
Definition select_where_user (db : database) (t : Table.t) (uid : string)
  : list (Table.row t) :=
  map (@record t) (filter (fun s => (owner s =? uid)%string) (db t)).

(** Whether some stored row of [t] has primary key [id]. *)
Definition holds (db : database) (t : Table.t) (id : string) : bool :=
  existsb (fun s => (Table.row_id (record s) =? id)%string) (db t).

(** The collaborators seen by a page when [user] is signed in and the
    store holds [db]. *)
Definition serving (user : option User.t) (db : database) : oracle :=
  fun r =>
    match r as r0 return settled (reply r0) with
    | AuthGetUser => Fulfilled user
    | AuthGetSession => Fulfilled (option_map Session.mk user)
    | AuthSignOut => Fulfilled None
    | Select t c v _ _ =>
        if (c =? "user_id")%string
        then Fulfilled (mkResponse (Some (select_where_user db t v)) None)
        else Fulfilled (mkResponse None (Some (mkError "unsupported filter")))
    | Insert _ _ => Fulfilled None
    | Delete _ _ _ => Fulfilled None
    | FunctionsInvoke _ _ =>
        Fulfilled (mkResponse None (Some (mkError "no such function")))
    end.

(** A correctly configured store: whatever a List filtered on [user_id]
    returns is a stored row owned by the user the filter names. *)
Definition well_configured (db : database) (env : environment) : Prop :=
  forall n t v o a rows e,
    env n (Select t "user_id" v o a) = Fulfilled (mkResponse (Some rows) e) ->
    forall x, In x rows -> In (mkStored t v x) (db t).

End Store.

(** The notifications and log labels of the three delete handlers. *)
Definition delete_success_message (p : list_page) : string :=
  match p with
  | ListTrips => "Trip deleted"
  | ListDiary => "Entry deleted"
  | ListDiscover => "Destination removed"
  end.

Definition delete_failure_message (p : list_page) : string :=
  match p with
  | ListTrips => "Failed to delete trip"
  | ListDiary => "Failed to delete entry"
  | ListDiscover => "Failed to remove destination"
  end.

Definition delete_log_label (p : list_page) : string :=
  match p with
  | ListTrips => "Error deleting trip:"
  | ListDiary => "Error deleting entry:"
  | ListDiscover => "Error deleting destination:"
  end.

(** [list.filter(item => item.id !== id)]. *)
Definition without_id {t : Table.t} (id : string) (l : list (Table.row t))
  : list (Table.row t) :=
  filter (fun x => negb (Table.row_id x =? id)%string) l.

(** The primary keys of a list of rows. *)
Definition ids {t : Table.t} (l : list (Table.row t)) : list string :=
  map Table.row_id l.

(* ================================================================== *)
(** * Sample collaborators *)

(** Collaborators that answer every session query with [user] and every
    other call with [failure] as its error; a successful List returns
    [rows] from each table. *)
Definition world (user : option User.t) (failure : option Error)
                 (rows : forall t, list (Table.row t)) : oracle :=
  fun r =>
    match r as r0 return settled (reply r0) with
    | AuthGetUser => Fulfilled user
    | AuthGetSession => Fulfilled (option_map Session.mk user)
    | AuthSignOut => Fulfilled failure
    | Select t _ _ _ _ =>
        Fulfilled (mkResponse (match failure with
                               | None => Some (rows t)
                               | Some _ => None
                               end) failure)
    | Insert _ _ => Fulfilled failure
    | Delete _ _ _ => Fulfilled failure
    | FunctionsInvoke _ _ =>
        Fulfilled (mkResponse (match failure with
                               | None => Some "Day 1: ..."
                               | Some _ => None
                               end) failure)
    end.

Definition no_rows : forall t, list (Table.row t) := fun _ => [].

Definition alice : User.t := User.mk "u-alice" "alice@example.org" "Alice".
Definition bob : User.t := User.mk "u-bob" "bob@example.org" "Bob".

(** No session, and a store that accepts everything. *)
Definition signed_out : environment := fun _ => world None None no_rows.

(** Alice is signed in and every call succeeds. *)
Definition signed_in : environment := fun _ => world (Some alice) None no_rows.

(** Alice is signed in and every call to the collaborators reports an error. *)
Definition failing : environment :=
  fun _ => world (Some alice) (Some (mkError "network error")) no_rows.

(** Bob is signed in and every call succeeds. *)
Definition signed_in_as_bob : environment :=
  fun _ => world (Some bob) None no_rows.

(** The session is lost after the first two calls. *)
Definition session_lost_after_two : environment :=
  fun n => if (n <? 2)%nat then world (Some alice) None no_rows
           else world None None no_rows.

(** Alice is signed in and the store holds nothing. *)
Definition empty_store : environment :=
  fun _ => Store.serving (Some alice) Store.empty.

(** Sample page states. *)
Definition kyoto : DiaryEntry.t :=
  DiaryEntry.mk "e-1" "Kyoto" "Temples" "2024-01-02" "Kyoto" "2024-01-02T10:00".
Definition osaka : DiaryEntry.t :=
  DiaryEntry.mk "e-2" "Osaka" "Food" "2024-01-03" "Osaka" "2024-01-03T10:00".
Definition diary_with_two : Diary.State :=
  Diary.mkState [kyoto; osaka] false false "" "" "" "2024-01-04".

Definition tokyo_trip : Trip.t :=
  Trip.mk "t-1" "Tokyo, Japan" "2024-01-01" "2024-01-05" "1000" "solo"
          "planned" "Day 1: ...".
Definition trips_with_one : Trips.State := Trips.mkState [tokyo_trip] false.

Definition tokyo_form : PlanTrip.State :=
  PlanTrip.mkState false "Tokyo, Japan" "2024-01-01" "2024-01-05" "1000"
                   "solo" ["Food"; "Culture"] "Day 1: ...".

(* ================================================================== *)
(** * Session guard *)

(** The session query of page [p], asked as the [n]-th call, returns no
    user: [getSession] on the Home page, [getUser] on the others. *)
Definition no_session (env : environment) (n : nat) (p : page) : Prop :=
  match p with
  | HomePage => env n AuthGetSession = Fulfilled None
  | _ => env n AuthGetUser = Fulfilled None
  end.

(** The session query the pages use. *)
Definition session_query (p : page) : request :=
  match p with
  | HomePage => AuthGetSession
  | _ => AuthGetUser
  end.

(** The pages whose mount effect queries the session. *)
Definition guarded_on_mount (p : page) : bool :=
  match p with
  | PlanTripPage => false
  | _ => true
  end.

(** The Save Trip form passes its validation. *)
Definition save_form_filled (st : PlanTrip.State) : Prop :=
  PlanTrip.destination st <> "" /\ PlanTrip.startDate st <> ""
  /\ PlanTrip.endDate st <> "" /\ PlanTrip.budget st <> "".

(** [n > 0] on numbers. *)
Definition positive (n : jsnum) : Prop :=
  match n with
  | NaN => False
  | Num z => 0 < z
  end.

(** The Get Recommendations form passes its field validation. *)
Definition recommendation_form_filled (st : PlanTrip.State) : Prop :=
  PlanTrip.destination st <> "" /\ PlanTrip.budget st <> ""
  /\ PlanTrip.travelType st <> "" /\ PlanTrip.selectedInterests st <> [].

(** The two validation notifications of Get Recommendations. *)
Definition rejected_by_validation (tr : list event) : Prop :=
  tr = [ Did (ToastError "Please fill in all fields") ]
  \/ tr = [ Did (ToastError "End date must be after start date") ].

(** Forms that Save Trip accepts although Get Recommendations would not:
    no travel type, and an end date before the start date. *)
Definition no_travel_type_form : PlanTrip.State :=
  PlanTrip.mkState false "Tokyo, Japan" "2024-01-01" "2024-01-05" "1000"
                   "" ["Food"] "Day 1: ...".

Definition reversed_dates_form : PlanTrip.State :=
  PlanTrip.mkState false "Tokyo, Japan" "2024-01-05" "2024-01-01" "1000"
                   "solo" ["Food"] "Day 1: ...".

(** The List request of a page for user [u], and what the page shows and
    logs when the List fails. *)
Definition order_column (p : list_page) : string :=
  match p with
  | ListTrips => "start_date"
  | ListDiary => "entry_date"
  | ListDiscover => "created_at"
  end.

Definition list_request (p : list_page) (u : User.t) : request :=
  Select (table_of p) "user_id" (User.id u) (order_column p) false.

Definition fetch_failure_message (p : list_page) : string :=
  match p with
  | ListTrips => "Failed to load trips"
  | ListDiary => "Failed to load diary entries"
  | ListDiscover => "Failed to load destinations"
  end.

Definition fetch_log_label (p : list_page) : string :=
  match p with
  | ListTrips => "Error fetching trips:"
  | ListDiary => "Error fetching entries:"
  | ListDiscover => "Error fetching destinations:"
  end.

(** The dialog of the Diary and Discover pages, closed and cleared after a
    successful insert. *)
Definition diary_dialog_cleared (st : Diary.State) : Diary.State :=
  Diary.setLocation ""
    (Diary.setContent "" (Diary.setTitle "" (Diary.setDialogOpen false st))).

Definition discover_dialog_cleared (st : Discover.State) : Discover.State :=
  Discover.setCategory ""
    (Discover.setDescription ""
       (Discover.setLocation ""
          (Discover.setName "" (Discover.setDialogOpen false st)))).

(** The paths of the link buttons of each page: the four cards of the Home
    page, "Back to Home" on the others, and "New Trip" / "Plan a Trip" on
    the Trips page. *)
Definition links (p : page) : list string :=
  match p with
  | HomePage => [ "/plan-trip"; "/trips"; "/diary"; "/discover" ]
  | PlanTripPage => [ "/" ]
  | TripsPage => [ "/"; "/plan-trip" ]
  | DiaryPage => [ "/" ]
  | DiscoverPage => [ "/" ]
  end.

(** The traces of every handler of every page: the mount effects, the
    session callback and sign-out of the Home page, the actions of the
    PlanTrip page, the create and delete actions of the list pages, the
    link buttons, and the inline handlers that only call a [useState]
    setter (the [onChange] of the form fields, opening and closing a
    dialog).  The cleanup of the Home page's mount effect only unsubscribes
    the session callback and calls nothing that a trace records. *)
Inductive handler_trace (env : environment) : list event -> Prop :=
| trace_mount (p : page) (n : nat) (st : page_state p) :
    handler_trace env (trace (run env n (onMount p) st))
| trace_auth_change (n : nat) (st : Index.State) (session : option Session.t) :
    handler_trace env (trace (run env n (Index.onAuthStateChange session) st))
| trace_sign_out (n : nat) (st : Index.State) :
    handler_trace env (trace (run env n Index.handleSignOut st))
| trace_toggle_interest (n : nat) (st : PlanTrip.State) (interest : string) :
    handler_trace env (trace (run env n (PlanTrip.toggleInterest interest) st))
| trace_get_recommendations (n : nat) (st : PlanTrip.State) :
    handler_trace env (trace (run env n (PlanTrip.handleGetRecommendations st) st))
| trace_save_trip (n : nat) (st : PlanTrip.State) :
    handler_trace env (trace (run env n (PlanTrip.handleSaveTrip st) st))
| trace_create_entry (n : nat) (st : Diary.State) :
    handler_trace env (trace (run env n (Diary.createEntry st) st))
| trace_save_destination (n : nat) (st : Discover.State) :
    handler_trace env (trace (run env n (Discover.saveDestination st) st))
| trace_delete (p : list_page) (n : nat) (st : list_state p) (id : string) :
    handler_trace env (trace (run env n (delete p st id) st))
| trace_link (p : page) (n : nat) (st : page_state p) (path : string) :
    In path (links p) ->
    handler_trace env (trace (run env n (navigate path) st))
| trace_setter (p : page) (n : nat) (st : page_state p)
               (f : page_state p -> page_state p) :
    handler_trace env (trace (run env n (set f) st)).

(** A List request scoped to a user the session query returned. *)
Definition user_scoped (env : environment) (r : request) : Prop :=
  match r with
  | Select _ c v _ _ =>
      c = "user_id"
      /\ exists m u, env m AuthGetUser = Fulfilled (Some u) /\ v = User.id u
  | _ => True
  end.

(** Alice's store: one diary entry of hers and one of Bob's. *)
Definition two_diaries : Store.database :=
  fun t =>
    match t as t0 return list (Store.stored t0) with
    | Table.diary_entries =>
        [ Store.mkStored Table.diary_entries "u-alice" kyoto;
          Store.mkStored Table.diary_entries "u-bob" osaka ]
    | _ => []
    end.

Definition alice_on_two_diaries : environment :=
  fun _ => Store.serving (Some alice) two_diaries.

(** A filled Diary dialog and a filled Discover dialog. *)
Definition diary_draft : Diary.State :=
  Diary.mkState [] false true "Nara" "Deer park" "Nara" "2024-01-04".

Definition discover_draft : Discover.State :=
  Discover.mkState [] false true "Fushimi Inari" "Kyoto" "Shrine" "Culture".

(* ================================================================== *)
(** * Further vocabulary *)

(** The badges of the PlanTrip form. *)
Definition interestOptions : list string :=
  [ "Adventure"; "Culture"; "Food"; "Photography"; "Nature";
    "History"; "Beaches"; "Shopping"; "Nightlife"; "Wellness" ].

(** The selection after the badge [interest] is clicked in state [st]. *)
Definition after_toggle (interest : string) (st : PlanTrip.State) : list string :=
  PlanTrip.selectedInterests
    (final (run signed_out 0 (PlanTrip.toggleInterest interest) st)).

(** The [loading] flag of a list page. *)
Definition page_loading (p : list_page) : list_state p -> bool :=
  match p with
  | ListTrips => Trips.loading
  | ListDiary => Diary.loading
  | ListDiscover => Discover.loading
  end.

(** A list page with its in-memory list replaced and [loading] cleared. *)
Definition loaded (p : list_page)
  : list (Table.row (table_of p)) -> list_state p -> list_state p :=
  match p with
  | ListTrips => fun l st => Trips.setLoading false (Trips.setTrips l st)
  | ListDiary => fun l st => Diary.setLoading false (Diary.setEntries l st)
  | ListDiscover =>
      fun l st => Discover.setLoading false (Discover.setDestinations l st)
  end.

(** A list page with its in-memory list replaced. *)
Definition with_items (p : list_page)
  : list (Table.row (table_of p)) -> list_state p -> list_state p :=
  match p with
  | ListTrips => Trips.setTrips
  | ListDiary => Diary.setEntries
  | ListDiscover => Discover.setDestinations
  end.

(** Calendar order on dates, strict. *)
Definition strictly_before (a b : Date.civil) : Prop :=
  Date.year a < Date.year b
  \/ (Date.year a = Date.year b
      /\ (Date.month a < Date.month b
          \/ (Date.month a = Date.month b /\ Date.day a < Date.day b))).

(** The paths a trace navigates to, in order. *)
Fixpoint navigations (tr : list event) : list string :=
  match tr with
  | [] => []
  | Did (Navigate path) :: tr' => path :: navigations tr'
  | _ :: tr' => navigations tr'
  end.

(** The error notifications of a trace, in order. *)
Fixpoint error_toasts (tr : list event) : list string :=
  match tr with
  | [] => []
  | Did (ToastError m) :: tr' => m :: error_toasts tr'
  | _ :: tr' => error_toasts tr'
  end.

(** The handlers that wrap their awaited calls in [try]/[catch]: all of
    the awaiting handlers but the session check and sign-out of the Home
    page. *)
Inductive guarded_run (env : environment) : completion unit -> Prop :=
| guarded_fetch (p : list_page) (n : nat) (st : list_state p) :
    guarded_run env (result (run env n (fetch p) st))
| guarded_delete (p : list_page) (n : nat) (st : list_state p) (id : string) :
    guarded_run env (result (run env n (delete p st id) st))
| guarded_create_entry (n : nat) (st : Diary.State) :
    guarded_run env (result (run env n (Diary.createEntry st) st))
| guarded_save_destination (n : nat) (st : Discover.State) :
    guarded_run env (result (run env n (Discover.saveDestination st) st))
| guarded_get_recommendations (n : nat) (st : PlanTrip.State) :
    guarded_run env (result (run env n (PlanTrip.handleGetRecommendations st) st))
| guarded_save_trip (n : nat) (st : PlanTrip.State) :
    guarded_run env (result (run env n (PlanTrip.handleSaveTrip st) st)).

(** Sample states and collaborators for the further properties. *)
Definition no_dates_form : PlanTrip.State :=
  PlanTrip.mkState false "Tokyo, Japan" "" "" "1000" "solo" ["Food"] "".

Definition untitled_draft : Diary.State :=
  Diary.mkState [kyoto] false true "" "Deer park" "Nara" "2024-01-04".

Definition unnamed_draft : Discover.State :=
  Discover.mkState [] false true "" "Kyoto" "Shrine" "Culture".

Definition signed_in_session : Session.t := Session.mk alice.

(** The recommendation function rejects with an error that has no message. *)
Definition silent_failure : environment :=
  fun _ => world (Some alice) (Some (mkError "")) no_rows.

(** Alice is signed in and every List is answered with neither data nor
    error. *)
Definition null_data : environment :=
  fun _ r =>
    match r as r0 return settled (reply r0) with
    | Select _ _ _ _ _ => Fulfilled (mkResponse None None)
    | AuthGetUser => Fulfilled (Some alice)
    | AuthGetSession => Fulfilled (Some signed_in_session)
    | AuthSignOut => Fulfilled None
    | Insert _ _ => Fulfilled None
    | Delete _ _ _ => Fulfilled None
    | FunctionsInvoke _ _ => Fulfilled (mkResponse None None)
    end.

(** The required fields of the two dialogs, and their notifications. *)
Definition diary_fields_filled (st : Diary.State) : Prop :=
  Diary.title st <> "" /\ Diary.content st <> "".

Definition discover_fields_filled (st : Discover.State) : Prop :=
  Discover.name st <> "" /\ Discover.location st <> "".

(** What a [catch] block adds to the trace when it logs the caught value
    and then shows [error.message || fallback]: reading the message of
    [null] or [undefined] throws before anything is shown. *)
Definition caught_and_shown (label fallback : string) (v : thrown) : list event :=
  Did (ConsoleError label v)
  :: match v with
     | Thrown e => [ Did (ToastError (or_else (message e) fallback)) ]
     | ThrownNull | ThrownUndefined => []
     end.

(** Collaborators that reject their promises with error objects only,
    never with [null] or [undefined]. *)
Definition rejects_with_errors (env : environment) : Prop :=
  forall n r v, env n r = Rejected v -> exists e, v = Thrown e.

(** Every call is rejected with [null]. *)
Definition rejecting_null : environment := fun _ _ => Rejected ThrownNull.

(** The Tokyo form with a start date no engine can read. *)
Definition unreadable_date_form : PlanTrip.State :=
  PlanTrip.mkState false "Tokyo, Japan" "tomorrow" "2024-01-05" "1000"
                   "solo" ["Food"; "Culture"] "".






(* ================================================================== *)
(** * Basic facts *)

Lemma falsy_true (s : string) : falsy s = true <-> s = "".
Proof. destruct s; simpl; split; congruence. Qed.

Lemma falsy_false (s : string) : falsy s = false <-> s <> "".
Proof. destruct s; simpl; split; congruence. Qed.

(** Case analysis on the values a promise was rejected with. *)
Ltac rejections :=
  repeat match goal with
         | v : thrown |- _ => destruct v
         end.

(** Case analysis on the answer to the next awaited call. *)
Ltac answer :=
  match goal with
  | |- context [match ?env ?n ?r with _ => _ end] =>
      let E := fresh "E" in destruct (env n r) eqn:E
  end.

(* ================================================================== *)
(** * Calendar arithmetic *)

Example getTime_2024 : Date.getTime "2024-01-01" = Num 1704067200000.
Proof. reflexivity. Qed.

Lemma month_cases (m : Z) : 1 <= m <= 12 ->
  m = 1 \/ m = 2 \/ m = 3 \/ m = 4 \/ m = 5 \/ m = 6 \/ m = 7 \/ m = 8
  \/ m = 9 \/ m = 10 \/ m = 11 \/ m = 12.
Proof. lia. Qed.

Lemma days_before_month_step (y m : Z) : 1 <= m <= 11 ->
  Date.days_before_month y m + Date.days_in_month y m
  = Date.days_before_month y (m + 1).
Proof.
  intros H. unfold Date.days_before_month, Date.days_in_month.
  destruct (@month_cases m ltac:(lia)) as [E|[E|[E|[E|[E|[E|[E|[E|[E|[E|[E|E]]]]]]]]]]];
    subst m; try lia; destruct (Date.is_leap y); reflexivity.
Qed.

Lemma days_before_month_mono (y m m' : Z) : 1 <= m -> m <= m' -> m' <= 12 ->
  Date.days_before_month y m <= Date.days_before_month y m'.
Proof.
  intros H1 H2 H3.
  destruct (@month_cases m ltac:(lia)) as [E|[E|[E|[E|[E|[E|[E|[E|[E|[E|[E|E]]]]]]]]]]];
  destruct (@month_cases m' ltac:(lia)) as [E'|[E'|[E'|[E'|[E'|[E'|[E'|[E'|[E'|[E'|[E'|E']]]]]]]]]]];
    subst m m'; try lia; unfold Date.days_before_month;
    destruct (Date.is_leap y); simpl; lia.
Qed.

Lemma days_before_month_nonneg (y m : Z) : 1 <= m <= 12 ->
  0 <= Date.days_before_month y m.
Proof.
  intros H.
  destruct (@month_cases m H) as [E|[E|[E|[E|[E|[E|[E|[E|[E|[E|[E|E]]]]]]]]]]];
    subst m; unfold Date.days_before_month;
    destruct (Date.is_leap y); simpl; lia.
Qed.

Lemma days_in_month_pos y m : 28 <= Date.days_in_month y m.
Proof.
  unfold Date.days_in_month.
  destruct (m =? 2); [destruct (Date.is_leap y); lia|].
  destruct ((m =? 4) || (m =? 6) || (m =? 9) || (m =? 11)); lia.
Qed.

Lemma day_of_year_bound (y m d : Z) : 1 <= m <= 12 -> d <= Date.days_in_month y m ->
  Date.days_before_month y m + d <= 365 + (if Date.is_leap y then 1 else 0).
Proof.
  intros Hm Hd.
  assert (Date.days_before_month y m + Date.days_in_month y m
          <= 365 + (if Date.is_leap y then 1 else 0)).
  { destruct (@month_cases m ltac:(lia)) as [E|[E|[E|[E|[E|[E|[E|[E|[E|[E|[E|E]]]]]]]]]]];
    subst m; unfold Date.days_before_month, Date.days_in_month;
    destruct (Date.is_leap y); simpl; lia. }
  lia.
Qed.

Lemma days_before_year_step (y : Z) :
  Date.days_before_year (y + 1)
  = Date.days_before_year y + 365 + (if Date.is_leap y then 1 else 0).
Proof.
  unfold Date.days_before_year, Date.is_leap.
  replace (y + 1 - 1) with y by lia.
  destruct (Z.eqb_spec (y mod 4) 0) as [E4|E4];
  destruct (Z.eqb_spec (y mod 100) 0) as [E100|E100];
  destruct (Z.eqb_spec (y mod 400) 0) as [E400|E400]; cbn [andb orb negb];
  Z.div_mod_to_equations; lia.
Qed.

Lemma days_before_year_mono (y y' : Z) : y <= y' ->
  Date.days_before_year y <= Date.days_before_year y'.
Proof.
  intros H. replace y' with (y + Z.of_nat (Z.to_nat (y' - y))) by lia.
  induction (Z.to_nat (y' - y)) as [|k IH].
  - rewrite Z.add_0_r. lia.
  - replace (y + Z.of_nat (S k)) with (y + Z.of_nat k + 1) by lia.
    rewrite days_before_year_step.
    destruct (Date.is_leap (y + Z.of_nat k)); lia.
Qed.

Lemma days_before_year_gap (y y' : Z) : y < y' ->
  Date.days_before_year y + 365 + (if Date.is_leap y then 1 else 0)
  <= Date.days_before_year y'.
Proof.
  intros H. rewrite <- days_before_year_step.
  apply days_before_year_mono. lia.
Qed.

Lemma valid_bounds (c : Date.civil) : Date.valid c = true ->
  1 <= Date.month c <= 12 /\ 1 <= Date.day c <= Date.days_in_month (Date.year c) (Date.month c).
Proof.
  unfold Date.valid. rewrite !andb_true_iff, !Z.leb_le. lia.
Qed.

Lemma day_number_mono (a b : Date.civil) :
  Date.valid a = true -> Date.valid b = true -> Date.le a b ->
  Date.day_number a <= Date.day_number b.
Proof.
  intros Va Vb L. apply valid_bounds in Va, Vb.
  destruct Va as [Ma Da], Vb as [Mb Db].
  unfold Date.day_number.
  destruct L as [Y|(Y & [M|(M & D)])].
  - pose proof (@days_before_year_gap _ _ Y) as G.
    pose proof (@day_of_year_bound (Date.year a) _ _ Ma (proj2 Da)) as B.
    pose proof (@days_before_month_nonneg (Date.year b) (Date.month b) Mb) as P.
    destruct (Date.is_leap (Date.year a)); lia.
  - rewrite Y.
    pose proof (@days_before_month_step (Date.year b) (Date.month a) ltac:(lia)) as S.
    pose proof (@days_before_month_mono (Date.year b) (Date.month a + 1)
                  (Date.month b) ltac:(lia) ltac:(lia) ltac:(lia)) as P.
    rewrite Y in Da. lia.
  - rewrite Y, M. lia.
Qed.

Lemma parse_valid (s : string) (c : Date.civil) :
  Date.parse s = Some c -> Date.valid c = true.
Proof.
  unfold Date.parse.
  destruct (list_ascii_of_string s) as [|y1 [|y2 [|y3 [|y4 [|s1 [|m1 [|m2 [|s2 [|d1 [|d2 [|x l]]]]]]]]]]];
    try discriminate.
  destruct (Ascii.eqb s1 "-" && Ascii.eqb s2 "-"); try discriminate.
  destruct (Date.number [y1; y2; y3; y4] 0); try discriminate.
  destruct (Date.number [m1; m2] 0); try discriminate.
  destruct (Date.number [d1; d2] 0); try discriminate.
  cbv zeta. destruct (Date.valid _) eqn:V; try discriminate.
  intros H. inversion H; subst. exact V.
Qed.

Lemma parse_nonempty (s : string) (c : Date.civil) :
  Date.parse s = Some c -> falsy s = false.
Proof. destruct s; [discriminate | reflexivity]. Qed.

Lemma ceil_div_exact (a b : Z) :
  ceil_div (Date.ms_per_day * b - Date.ms_per_day * a) Date.ms_per_day = b - a.
Proof.
  unfold ceil_div.
  replace (- (Date.ms_per_day * b - Date.ms_per_day * a))
    with ((a - b) * Date.ms_per_day) by lia.
  rewrite Z.div_mul by (unfold Date.ms_per_day; lia). lia.
Qed.

(** On two date strings the day count is the calendar-day difference. *)
Lemma calculateDays_dates (st : PlanTrip.State) (s e : Date.civil) :
  Date.parse (PlanTrip.startDate st) = Some s ->
  Date.parse (PlanTrip.endDate st) = Some e ->
  PlanTrip.calculateDays st = Num (Date.day_number e - Date.day_number s).
Proof.
  intros Hs He. unfold PlanTrip.calculateDays.
  rewrite (parse_nonempty _ Hs), (parse_nonempty _ He). cbn [orb].
  unfold Date.getTime. rewrite Hs, He. cbv zeta. unfold js_ceil_diff_div.
  now rewrite ceil_div_exact.
Qed.

(* ================================================================== *)
(** * C2: sign-out *)

(** C2 (as amended): [handleSignOut] always calls signOut first; when the
    call reports success it shows the success notification and then
    navigates to ["/auth"]; when it reports an error it shows the failure
    notification and does not navigate. *)
Theorem handleSignOut_outcomes (env : environment) (n : nat) (st : Index.State) :
  trace (run env n Index.handleSignOut st) =
  match env n AuthSignOut with
  | Fulfilled None =>
      [ Called AuthSignOut;
        Did (ToastSuccess "Signed out successfully");
        Did (Navigate "/auth") ]
  | Fulfilled (Some _) =>
      [ Called AuthSignOut; Did (ToastError "Failed to sign out") ]
  | Rejected _ => [ Called AuthSignOut ]
  end.
Proof.
  unfold Index.handleSignOut. simpl.
  destruct (env n AuthSignOut) as [[e|]|e]; reflexivity.
Qed.

(** C2 (counterexample): when signOut reports an error the handler shows
    the failure notification and stays on the page: the trace holds no
    navigation to ["/auth"]. *)
Lemma handleSignOut_failure_stays :
  failing 0%nat AuthSignOut = Fulfilled (Some (mkError "network error"))
  /\ trace (run failing 0 Index.handleSignOut Index.initial)
     = [ Called AuthSignOut; Did (ToastError "Failed to sign out") ]
  /\ existsb (is_navigate "/auth")
             (trace (run failing 0 Index.handleSignOut Index.initial)) = false.
Proof. repeat split. Qed.

(* ================================================================== *)
(** * C1: the session guard on mount *)

(** C1 (as amended): on the Home, Trips, Diary and Discover pages the mount
    effect starts with the session query, before any store call, and when
    the query returns no user it navigates to ["/auth"] and issues no store
    call at all.  The PlanTrip page runs nothing on mount: no session query,
    no store call, no navigation.  Its Save Trip action queries the session
    itself and, when there is no user, issues no insert, shows the
    notification "Not authenticated" and does not navigate. *)
Theorem mount_without_session (env : environment) (n : nat) :
  (forall (p : page) (st : page_state p),
      guarded_on_mount p = true ->
      (exists rest,
          trace (run env n (onMount p) st) = Called (session_query p) :: rest)
      /\ (no_session env n p ->
          trace (run env n (onMount p) st)
          = [ Called (session_query p); Did (Navigate "/auth") ]
          /\ existsb is_store_call (trace (run env n (onMount p) st)) = false))
  /\ (forall st : PlanTrip.State,
         trace (run env n (onMount PlanTripPage) st) = [])
  /\ (forall st : PlanTrip.State,
         save_form_filled st ->
         no_session env n PlanTripPage ->
         trace (run env n (PlanTrip.handleSaveTrip st) st)
         = [ Called AuthGetUser;
             Did (ConsoleError "Error saving trip:" (mkError "Not authenticated"));
             Did (ToastError "Not authenticated") ]).
Proof.
  split; [| split].
  - intros p st G. destruct p; simpl in G; try discriminate; simpl;
      [ unfold Index.onMount, Index.checkSession
      | unfold Trips.onMount, Trips.fetchTrips
      | unfold Diary.onMount, Diary.fetchEntries
      | unfold Discover.onMount, Discover.fetchDestinations ];
      simpl; (split; [eexists; reflexivity|]);
      intros H; rewrite H; split; reflexivity.
  - intros st. reflexivity.
  - intros st (Hd & Hs & He & Hb) H. simpl in H.
    unfold PlanTrip.handleSaveTrip.
    apply falsy_false in Hd, Hs, He, Hb. rewrite Hd, Hs, He, Hb. simpl.
    rewrite H. reflexivity.
Qed.

(** C1 (witness): the Diary page mounted without a session, and Save Trip
    invoked without a session on a filled form. *)
Lemma mount_without_session_witness :
  trace (run signed_out 0 (onMount DiaryPage) (Diary.initial "2024-01-01"))
  = [ Called AuthGetUser; Did (Navigate "/auth") ]
  /\ trace (run signed_out 0
                (PlanTrip.handleSaveTrip tokyo_form) tokyo_form)
     = [ Called AuthGetUser;
         Did (ConsoleError "Error saving trip:" (mkError "Not authenticated"));
         Did (ToastError "Not authenticated") ].
Proof.
  split.
  - apply (proj2 (proj1 (mount_without_session signed_out 0) DiaryPage
                        (Diary.initial "2024-01-01") eq_refl)). reflexivity.
  - apply (proj2 (proj2 (mount_without_session signed_out 0))).
    + repeat split; discriminate.
    + reflexivity.
Defined.

(** C1 (counterexample): the PlanTrip page mounted without a session issues
    no session query and does not navigate to ["/auth"]. *)
Lemma plan_trip_mount_unguarded :
  no_session signed_out 0 PlanTripPage
  /\ trace (run signed_out 0 (onMount PlanTripPage) PlanTrip.initial) = []
  /\ existsb (is_navigate "/auth")
             (trace (run signed_out 0 (onMount PlanTripPage) PlanTrip.initial))
     = false
  /\ existsb is_session_query
             (trace (run signed_out 0 (onMount PlanTripPage) PlanTrip.initial))
     = false.
Proof. repeat split. Qed.

(* ================================================================== *)
(** * C5 and C9: delete *)

Lemma without_id_absent {t : Table.t} (id : string) (l : list (Table.row t)) :
  ~ In id (ids l) -> without_id id l = l.
Proof.
  induction l as [|x l IH]; simpl; intros H; [reflexivity|].
  destruct (String.eqb_spec (Table.row_id x) id) as [E|E]; simpl.
  - exfalso. apply H. now left.
  - f_equal. apply IH. intros H'. apply H. now right.
Qed.

Lemma without_id_present {t : Table.t} (id : string) (l : list (Table.row t)) :
  NoDup (ids l) -> In id (ids l) ->
  exists l1 x l2, l = (l1 ++ x :: l2)%list /\ Table.row_id x = id
                  /\ without_id id l = (l1 ++ l2)%list.
Proof.
  induction l as [|x l IH]; simpl; intros ND H; [contradiction|].
  inversion ND as [|? ? Hx ND']; subst.
  destruct (String.eqb_spec (Table.row_id x) id) as [E|E]; simpl.
  - exists [], x, l. repeat split; trivial.
    simpl. apply without_id_absent. now rewrite <- E.
  - destruct H as [H|H]; [contradiction|].
    destruct (IH ND' H) as (l1 & y & l2 & E1 & E2 & E3).
    exists (x :: l1), y, l2. simpl. rewrite E1 at 1. rewrite E3. auto.
Qed.

(** What a delete handler does, for every answer of the store. *)
Lemma delete_run (p : list_page) (env : environment) (n : nat)
      (st : list_state p) (id : string) :
  let o := run env n (delete p st id) st in
  match env n (Delete (table_of p) "id" id) with
  | Fulfilled None =>
      trace o = [ Called (Delete (table_of p) "id" id);
                  Did (ToastSuccess (delete_success_message p)) ]
      /\ items p (final o) = without_id id (items p st)
  | Fulfilled (Some e) | Rejected e =>
      trace o = [ Called (Delete (table_of p) "id" id);
                  Did (ConsoleError (delete_log_label p) e);
                  Did (ToastError (delete_failure_message p)) ]
      /\ final o = st
  end.
Proof.
  destruct p; simpl;
    [ unfold Trips.deleteTrip | unfold Diary.deleteEntry
    | unfold Discover.deleteDestination ]; simpl;
    answer; try (destruct x); simpl; split; reflexivity.
Qed.

(** C5 (as amended): for the delete handler of every page, when the store
    reports success the only request is the delete itself (no re-List), a
    success notification is shown and the in-memory list becomes the
    previous list without the items whose id equals the deleted id; with
    distinct ids and the id in the list exactly one item is removed, and
    with the id not in the list the list is unchanged.  When the store
    reports an error the failure notification is shown and the page state
    is left unchanged.  Which notification is shown depends on the store's
    answer only. *)
Theorem delete_effect (p : list_page) (env : environment) (n : nat)
        (st : list_state p) (id : string) :
  let o := run env n (delete p st id) st in
  (env n (Delete (table_of p) "id" id) = Fulfilled None ->
     trace o = [ Called (Delete (table_of p) "id" id);
                 Did (ToastSuccess (delete_success_message p)) ]
     /\ items p (final o) = without_id id (items p st)
     /\ (NoDup (ids (items p st)) -> In id (ids (items p st)) ->
         exists l1 x l2,
           items p st = (l1 ++ x :: l2)%list /\ Table.row_id x = id
           /\ items p (final o) = (l1 ++ l2)%list)
     /\ (~ In id (ids (items p st)) -> items p (final o) = items p st))
  /\ (forall e,
         env n (Delete (table_of p) "id" id) = Fulfilled (Some e) ->
         trace o = [ Called (Delete (table_of p) "id" id);
                     Did (ConsoleError (delete_log_label p) e);
                     Did (ToastError (delete_failure_message p)) ]
         /\ final o = st).
Proof.
  intros o. pose proof (delete_run p env n st id) as R. fold o in R.
  split.
  - intros E. rewrite E in R. destruct R as [T I].
    repeat split; trivial.
    + intros ND H. rewrite I. now apply without_id_present.
    + intros H. rewrite I. now apply without_id_absent.
  - intros e E. rewrite E in R. exact R.
Qed.

(** C5 (witness): the Diary page holding two entries; the first is deleted
    with success, and the same delete refused by the store changes nothing. *)
Lemma delete_effect_witness :
  Diary.entries (final (run signed_in 0 (Diary.deleteEntry diary_with_two "e-1")
                            diary_with_two)) = [osaka]
  /\ final (run failing 0 (Diary.deleteEntry diary_with_two "e-1") diary_with_two)
     = diary_with_two.
Proof.
  split.
  - destruct (proj1 (delete_effect ListDiary signed_in 0 diary_with_two "e-1")
                    eq_refl) as (_ & I & _). exact I.
  - destruct (proj2 (delete_effect ListDiary failing 0 diary_with_two "e-1")
                    (mkError "network error") eq_refl) as (_ & F). exact F.
Defined.

(** C5 (counterexample): deleting an id the store does not hold.  The store
    answers [delete where id = X] on no matching row without an error, so
    the Trips page shows the success notification "Trip deleted", not a
    failure notification. *)
Lemma delete_missing_id_reports_success :
  Store.holds Store.empty Table.trips "t-404" = false
  /\ trace (run empty_store 0 (Trips.deleteTrip trips_with_one "t-404")
                trips_with_one)
     = [ Called (Delete Table.trips "id" "t-404");
         Did (ToastSuccess "Trip deleted") ]
  /\ existsb is_toast_error
             (trace (run empty_store 0 (Trips.deleteTrip trips_with_one "t-404")
                         trips_with_one)) = false.
Proof. repeat split. Qed.

(** C9: the request a delete handler builds constrains the primary key only:
    whatever the collaborators answer and whatever the page state, the only
    request issued is [delete where id = id] on the page's table, with no
    session query before it; so the requests of two runs on the same id
    coincide for any two session users. *)
Theorem delete_requests_unscoped (p : list_page) (id : string) :
  (forall env n st,
      requests (trace (run env n (delete p st id) st))
      = [ Delete (table_of p) "id" id ]
      /\ existsb is_session_query (trace (run env n (delete p st id) st)) = false)
  /\ (forall env1 env2 n1 n2 st1 st2,
         requests (trace (run env1 n1 (delete p st1 id) st1))
         = requests (trace (run env2 n2 (delete p st2 id) st2))).
Proof.
  assert (A : forall env n st,
             requests (trace (run env n (delete p st id) st))
             = [ Delete (table_of p) "id" id ]
             /\ existsb is_session_query (trace (run env n (delete p st id) st))
                = false).
  { intros env n st. pose proof (delete_run p env n st id) as R. simpl in R.
    destruct (env n (Delete (table_of p) "id" id)) as [[e|]|e];
      destruct R as [T _]; rewrite T; split; reflexivity. }
  split; [exact A|].
  intros env1 env2 n1 n2 st1 st2.
  rewrite (proj1 (A env1 n1 st1)), (proj1 (A env2 n2 st2)). reflexivity.
Qed.

(** Alice's entry is named in the same request whether Alice or Bob is the
    session user. *)
Example delete_as_alice_or_bob :
  requests (trace (run signed_in 0 (Diary.deleteEntry diary_with_two "e-1")
                       diary_with_two))
  = [ Delete Table.diary_entries "id" "e-1" ]
  /\ requests (trace (run signed_in_as_bob 0
                          (Diary.deleteEntry (Diary.initial "2024-01-04") "e-1")
                          (Diary.initial "2024-01-04")))
     = [ Delete Table.diary_entries "id" "e-1" ].
Proof. split; reflexivity. Qed.

(* ================================================================== *)
(** * C4 and C6: Get Recommendations *)

Lemma no_interest (l : list string) :
  (List.length l =? 0)%nat = true <-> l = [].
Proof. destruct l; simpl; split; congruence. Qed.

(** The field check of Get Recommendations, as a proposition. *)
Lemma field_check_fails (st : PlanTrip.State) :
  falsy (PlanTrip.destination st) || falsy (PlanTrip.budget st)
  || falsy (PlanTrip.travelType st)
  || (List.length (PlanTrip.selectedInterests st) =? 0)%nat = true
  <-> (PlanTrip.destination st = "" \/ PlanTrip.budget st = ""
       \/ PlanTrip.travelType st = "" \/ PlanTrip.selectedInterests st = []).
Proof.
  rewrite !orb_true_iff, !falsy_true, no_interest. tauto.
Qed.

Lemma field_check_passes (st : PlanTrip.State) :
  falsy (PlanTrip.destination st) || falsy (PlanTrip.budget st)
  || falsy (PlanTrip.travelType st)
  || (List.length (PlanTrip.selectedInterests st) =? 0)%nat = false
  <-> recommendation_form_filled st.
Proof.
  unfold recommendation_form_filled.
  rewrite !orb_false_iff, !falsy_false.
  destruct (PlanTrip.selectedInterests st); simpl; split;
    intros (((A & B) & C) & D) || intros (A & B & C & D);
    repeat split; congruence.
Qed.

(** Either check failing ends the handler with its notification alone. *)
Lemma recommendations_rejected (env : environment) (n : nat) (st : PlanTrip.State) :
  (PlanTrip.destination st = "" \/ PlanTrip.budget st = ""
   \/ PlanTrip.travelType st = "" \/ PlanTrip.selectedInterests st = []
   \/ js_le0 (PlanTrip.calculateDays st) = true) ->
  rejected_by_validation (trace (run env n (PlanTrip.handleGetRecommendations st) st))
  /\ existsb is_invoke
             (trace (run env n (PlanTrip.handleGetRecommendations st) st)) = false.
Proof.
  intros H. unfold PlanTrip.handleGetRecommendations, rejected_by_validation.
  destruct (falsy (PlanTrip.destination st) || falsy (PlanTrip.budget st)
            || falsy (PlanTrip.travelType st)
            || (List.length (PlanTrip.selectedInterests st) =? 0)%nat) eqn:F.
  - simpl. auto.
  - assert (D : js_le0 (PlanTrip.calculateDays st) = true).
    { destruct H as [H|[H|[H|[H|H]]]]; trivial;
        exfalso; apply field_check_passes in F;
        destruct F as (A & B & C & D); contradiction. }
    cbv zeta. rewrite D. simpl. auto.
Qed.

(** Both checks passing sends exactly one request, with the form's values. *)
Lemma recommendations_sent (env : environment) (n : nat) (st : PlanTrip.State) :
  recommendation_form_filled st ->
  js_le0 (PlanTrip.calculateDays st) = false ->
  requests (trace (run env n (PlanTrip.handleGetRecommendations st) st))
  = [ FunctionsInvoke "travel-recommendations"
        (PlanTrip.recommendation_body st (PlanTrip.calculateDays st)) ].
Proof.
  intros F D. apply field_check_passes in F.
  unfold PlanTrip.handleGetRecommendations. rewrite F. cbv zeta. rewrite D.
  simpl. answer; [destruct x as [[d|] [e|]] | destruct e]; reflexivity.
Qed.

(** C4: for the start date 2024-01-01 and the end date 2024-01-05 the
    computed day count is 4; on two date strings the day count is the
    calendar-day difference between end and start; and whenever the end date
    is equal to or before the start date, Get Recommendations ends with a
    validation notification alone and the recommendation function is never
    invoked. *)
Theorem day_count_validation :
  (forall st : PlanTrip.State,
      PlanTrip.startDate st = "2024-01-01" ->
      PlanTrip.endDate st = "2024-01-05" ->
      PlanTrip.calculateDays st = Num 4)
  /\ (forall (st : PlanTrip.State) (s e : Date.civil),
         Date.parse (PlanTrip.startDate st) = Some s ->
         Date.parse (PlanTrip.endDate st) = Some e ->
         PlanTrip.calculateDays st = Num (Date.day_number e - Date.day_number s))
  /\ (forall (env : environment) (n : nat) (st : PlanTrip.State) (s e : Date.civil),
         Date.parse (PlanTrip.startDate st) = Some s ->
         Date.parse (PlanTrip.endDate st) = Some e ->
         Date.le e s ->
         rejected_by_validation
           (trace (run env n (PlanTrip.handleGetRecommendations st) st))
         /\ existsb is_invoke
                    (trace (run env n (PlanTrip.handleGetRecommendations st) st))
            = false).
Proof.
  split; [| split].
  - intros st Hs He. unfold PlanTrip.calculateDays. rewrite Hs, He. reflexivity.
  - exact calculateDays_dates.
  - intros env n st s e Hs He L. apply recommendations_rejected.
    do 4 right. rewrite (calculateDays_dates st Hs He). simpl.
    apply Z.leb_le.
    pose proof (day_number_mono (parse_valid _ He) (parse_valid _ Hs) L). lia.
Qed.

(** C4 (witness): the Tokyo form counts 4 days; with the two dates swapped
    the request is rejected. *)
Lemma day_count_validation_witness :
  PlanTrip.calculateDays tokyo_form = Num 4
  /\ rejected_by_validation
       (trace (run signed_in 0
                   (PlanTrip.handleGetRecommendations
                      (PlanTrip.mkState false "Tokyo, Japan" "2024-01-05"
                                        "2024-01-01" "1000" "solo" ["Food"] ""))
                   (PlanTrip.mkState false "Tokyo, Japan" "2024-01-05"
                                     "2024-01-01" "1000" "solo" ["Food"] ""))).
Proof.
  split.
  - apply (proj1 day_count_validation tokyo_form); reflexivity.
  - apply (proj2 (proj2 day_count_validation) signed_in 0%nat
                 (PlanTrip.mkState false "Tokyo, Japan" "2024-01-05"
                                   "2024-01-01" "1000" "solo" ["Food"] "")
                 (Date.mkCivil 2024 1 5) (Date.mkCivil 2024 1 1));
      try reflexivity.
    right. split; [reflexivity|]. right. split; [reflexivity|]. simpl. lia.
Defined.

(** C6 (as amended): for every form state in which the destination, the
    budget or the travel type is empty, or no interest is selected, or the
    computed day count is a number that is not strictly positive (zero or
    negative; a missing date counts as zero), Get Recommendations shows a
    validation notification and never invokes the recommendation function;
    when the four fields are filled and the day count is strictly positive
    it invokes the function exactly once, with the destination, the parsed
    budget, the travel type, the selected interests and the day count. *)
Theorem recommendation_preconditions (env : environment) (n : nat)
        (st : PlanTrip.State) :
  ((PlanTrip.destination st = "" \/ PlanTrip.budget st = ""
    \/ PlanTrip.travelType st = "" \/ PlanTrip.selectedInterests st = []
    \/ exists z, PlanTrip.calculateDays st = Num z /\ z <= 0) ->
   rejected_by_validation
     (trace (run env n (PlanTrip.handleGetRecommendations st) st))
   /\ existsb is_invoke
              (trace (run env n (PlanTrip.handleGetRecommendations st) st)) = false)
  /\ (recommendation_form_filled st ->
      positive (PlanTrip.calculateDays st) ->
      requests (trace (run env n (PlanTrip.handleGetRecommendations st) st))
      = [ FunctionsInvoke "travel-recommendations"
            [ ("destination", JStr (PlanTrip.destination st));
              ("budget", JParseFloat (PlanTrip.budget st));
              ("travelType", JStr (PlanTrip.travelType st));
              ("interests", JStrs (PlanTrip.selectedInterests st));
              ("days", JNum (PlanTrip.calculateDays st)) ] ]).
Proof.
  split.
  - intros H. apply recommendations_rejected.
    destruct H as [H|[H|[H|[H|(z & Z & L)]]]]; auto.
    do 4 right. rewrite Z. simpl. now apply Z.leb_le.
  - intros F P. apply recommendations_sent; trivial.
    destruct (PlanTrip.calculateDays st) as [|z]; simpl in *; [reflexivity|].
    now apply Z.leb_gt.
Qed.

(** C6 (witness): the Tokyo form is sent; without interests it is rejected. *)
Lemma recommendation_preconditions_witness :
  requests (trace (run signed_in 0 (PlanTrip.handleGetRecommendations tokyo_form)
                       tokyo_form))
  = [ FunctionsInvoke "travel-recommendations"
        [ ("destination", JStr "Tokyo, Japan");
          ("budget", JParseFloat "1000");
          ("travelType", JStr "solo");
          ("interests", JStrs ["Food"; "Culture"]);
          ("days", JNum (Num 4)) ] ]
  /\ existsb is_invoke
             (trace (run signed_in 0
                         (PlanTrip.handleGetRecommendations
                            (PlanTrip.setSelectedInterests (fun _ => []) tokyo_form))
                         (PlanTrip.setSelectedInterests (fun _ => []) tokyo_form)))
     = false.
Proof.
  split.
  - apply (proj2 (recommendation_preconditions signed_in 0 tokyo_form)).
    + repeat split; discriminate.
    + vm_compute. reflexivity.
  - apply (proj1 (recommendation_preconditions signed_in 0
                    (PlanTrip.setSelectedInterests (fun _ => []) tokyo_form))).
    right. right. right. left. reflexivity.
Defined.

(** C6 (counterexample): the Tokyo form with a start date that cannot be
    read.  The day count is [NaN], which is not strictly positive, yet the
    check [days <= 0] is false on it and the recommendation function is
    invoked, with [NaN] as the number of days. *)
Lemma unreadable_date_is_sent :
  recommendation_form_filled unreadable_date_form
  /\ PlanTrip.calculateDays unreadable_date_form = NaN
  /\ ~ positive (PlanTrip.calculateDays unreadable_date_form)
  /\ existsb is_invoke
             (trace (run signed_in 0
                         (PlanTrip.handleGetRecommendations unreadable_date_form)
                         unreadable_date_form)) = true
  /\ requests (trace (run signed_in 0
                          (PlanTrip.handleGetRecommendations unreadable_date_form)
                          unreadable_date_form))
     = [ FunctionsInvoke "travel-recommendations"
           [ ("destination", JStr "Tokyo, Japan");
             ("budget", JParseFloat "1000");
             ("travelType", JStr "solo");
             ("interests", JStrs ["Food"; "Culture"]);
             ("days", JNum NaN) ] ].
Proof.
  split; [repeat split; discriminate|].
  split; [reflexivity|]. split; [intros H; exact H|]. split; reflexivity.
Qed.

(* ================================================================== *)
(** * C3 and C10: Save Trip *)

Lemma save_check_passes (st : PlanTrip.State) :
  save_form_filled st ->
  falsy (PlanTrip.destination st) || falsy (PlanTrip.startDate st)
  || falsy (PlanTrip.endDate st) || falsy (PlanTrip.budget st) = false.
Proof.
  intros (A & B & C & D). apply falsy_false in A, B, C, D.
  now rewrite A, B, C, D.
Qed.

(** Save Trip on an accepted form with a signed-in user, for every answer
    of the store. *)
Lemma save_trip_run (env : environment) (n : nat) (st : PlanTrip.State)
      (u : User.t) :
  save_form_filled st ->
  env n AuthGetUser = Fulfilled (Some u) ->
  trace (run env n (PlanTrip.handleSaveTrip st) st) =
  Called AuthGetUser :: Called (Insert Table.trips (PlanTrip.trip_record st u)) ::
  match env (S n) (Insert Table.trips (PlanTrip.trip_record st u)) with
  | Fulfilled None =>
      [ Did (ToastSuccess "Trip saved successfully!"); Did (Navigate "/trips") ]
  | Fulfilled (Some e) =>
      caught_and_shown "Error saving trip:" "Failed to save trip" e
  | Rejected v =>
      caught_and_shown "Error saving trip:" "Failed to save trip" v
  end.
Proof.
  intros F U. unfold PlanTrip.handleSaveTrip.
  rewrite (save_check_passes F). simpl. rewrite U. simpl.
  destruct (env (S n) (Insert Table.trips (PlanTrip.trip_record st u)))
    as [[e|]|[e| |]]; reflexivity.
Qed.

(** C3 (as amended): on a form whose destination, start date, end date and
    budget are non-empty, and when the session query returns a user, Save
    Trip performs exactly one insert into the trips store, whose notes field
    is the current recommendation text and whose status field is "planned";
    when the insert succeeds it shows the success notification and then
    navigates to ["/trips"]. *)
Theorem save_trip_inserts_once (env : environment) (n : nat)
        (st : PlanTrip.State) (u : User.t) :
  save_form_filled st ->
  env n AuthGetUser = Fulfilled (Some u) ->
  let o := run env n (PlanTrip.handleSaveTrip st) st in
  requests (trace o) = [ AuthGetUser; Insert Table.trips (PlanTrip.trip_record st u) ]
  /\ count (is_insert Table.trips) (trace o) = 1%nat
  /\ field "notes" (PlanTrip.trip_record st u)
     = Some (JStr (PlanTrip.aiRecommendations st))
  /\ field "status" (PlanTrip.trip_record st u) = Some (JStr "planned")
  /\ (env (S n) (Insert Table.trips (PlanTrip.trip_record st u)) = Fulfilled None ->
      trace o = [ Called AuthGetUser;
                  Called (Insert Table.trips (PlanTrip.trip_record st u));
                  Did (ToastSuccess "Trip saved successfully!");
                  Did (Navigate "/trips") ]).
Proof.
  intros F U o. pose proof (@save_trip_run env n st u F U) as R. fold o in R.
  repeat split; try reflexivity.
  - rewrite R. destruct (env (S n) _) as [[e|]|[e| |]]; reflexivity.
  - rewrite R. destruct (env (S n) _) as [[e|]|[e| |]]; reflexivity.
  - intros I. rewrite R, I. reflexivity.
Qed.

(** C3 (witness): Alice saves the Tokyo form. *)
Lemma save_trip_inserts_once_witness :
  trace (run signed_in 0 (PlanTrip.handleSaveTrip tokyo_form) tokyo_form)
  = [ Called AuthGetUser;
      Called (Insert Table.trips (PlanTrip.trip_record tokyo_form alice));
      Did (ToastSuccess "Trip saved successfully!");
      Did (Navigate "/trips") ].
Proof.
  apply (@save_trip_inserts_once signed_in 0%nat tokyo_form alice).
  - repeat split; discriminate.
  - reflexivity.
  - reflexivity.
Defined.

(** C3 (counterexample): the Tokyo form, with its recommendation text, saved
    when the session query returns no user: no insert is performed. *)
Lemma save_trip_without_user_inserts_nothing :
  save_form_filled tokyo_form
  /\ PlanTrip.aiRecommendations tokyo_form <> ""
  /\ count (is_insert Table.trips)
           (trace (run signed_out 0 (PlanTrip.handleSaveTrip tokyo_form) tokyo_form))
     = 0%nat
  /\ trace (run signed_out 0 (PlanTrip.handleSaveTrip tokyo_form) tokyo_form)
     = [ Called AuthGetUser;
         Did (ConsoleError "Error saving trip:" (mkError "Not authenticated"));
         Did (ToastError "Not authenticated") ].
Proof. repeat split; discriminate. Qed.

(** C10: Save Trip checks only that the destination, the start date, the end
    date and the budget are non-empty.  When one of them is empty it shows
    its validation notification and does nothing else; otherwise, for a
    signed-in user and a store that accepts the insert, it inserts the form's
    values whatever the travel type and the order of the dates.  So the form
    with an empty travel type and the form whose end date is before its
    start date are both inserted as they are, with no error notification. *)
Theorem save_trip_checks_four_fields :
  (forall (env : environment) (n : nat) (st : PlanTrip.State),
      (PlanTrip.destination st = "" \/ PlanTrip.startDate st = ""
       \/ PlanTrip.endDate st = "" \/ PlanTrip.budget st = "") ->
      trace (run env n (PlanTrip.handleSaveTrip st) st)
      = [ Did (ToastError "Please fill in all required fields") ])
  /\ (forall (env : environment) (n : nat) (st : PlanTrip.State) (u : User.t),
         save_form_filled st ->
         env n AuthGetUser = Fulfilled (Some u) ->
         env (S n) (Insert Table.trips (PlanTrip.trip_record st u)) = Fulfilled None ->
         trace (run env n (PlanTrip.handleSaveTrip st) st)
         = [ Called AuthGetUser;
             Called (Insert Table.trips (PlanTrip.trip_record st u));
             Did (ToastSuccess "Trip saved successfully!");
             Did (Navigate "/trips") ]
         /\ field "travel_type" (PlanTrip.trip_record st u)
            = Some (JStr (PlanTrip.travelType st))
         /\ field "start_date" (PlanTrip.trip_record st u)
            = Some (JStr (PlanTrip.startDate st))
         /\ field "end_date" (PlanTrip.trip_record st u)
            = Some (JStr (PlanTrip.endDate st)))
  /\ (PlanTrip.travelType no_travel_type_form = ""
      /\ trace (run signed_in 0 (PlanTrip.handleSaveTrip no_travel_type_form)
                    no_travel_type_form)
         = [ Called AuthGetUser;
             Called (Insert Table.trips
                       [ ("user_id", JStr "u-alice");
                         ("destination", JStr "Tokyo, Japan");
                         ("start_date", JStr "2024-01-01");
                         ("end_date", JStr "2024-01-05");
                         ("budget", JParseFloat "1000");
                         ("travel_type", JStr "");
                         ("notes", JStr "Day 1: ...");
                         ("status", JStr "planned") ]);
             Did (ToastSuccess "Trip saved successfully!");
             Did (Navigate "/trips") ])
  /\ (PlanTrip.calculateDays reversed_dates_form = Num (-4)
      /\ trace (run signed_in 0 (PlanTrip.handleSaveTrip reversed_dates_form)
                    reversed_dates_form)
         = [ Called AuthGetUser;
             Called (Insert Table.trips
                       [ ("user_id", JStr "u-alice");
                         ("destination", JStr "Tokyo, Japan");
                         ("start_date", JStr "2024-01-05");
                         ("end_date", JStr "2024-01-01");
                         ("budget", JParseFloat "1000");
                         ("travel_type", JStr "solo");
                         ("notes", JStr "Day 1: ...");
                         ("status", JStr "planned") ]);
             Did (ToastSuccess "Trip saved successfully!");
             Did (Navigate "/trips") ]).
Proof.
  split; [| split; [| split]].
  - intros env n st H. unfold PlanTrip.handleSaveTrip.
    assert (E : falsy (PlanTrip.destination st) || falsy (PlanTrip.startDate st)
                || falsy (PlanTrip.endDate st) || falsy (PlanTrip.budget st) = true).
    { rewrite !orb_true_iff, !falsy_true. tauto. }
    rewrite E. reflexivity.
  - intros env n st u F U I. rewrite (@save_trip_run env n st u F U), I.
    repeat split; reflexivity.
  - split; reflexivity.
  - split; reflexivity.
Qed.

(** C10 (witness): an empty destination is refused; the form without a
    travel type is inserted. *)
Lemma save_trip_checks_four_fields_witness :
  trace (run signed_in 0 (PlanTrip.handleSaveTrip PlanTrip.initial) PlanTrip.initial)
  = [ Did (ToastError "Please fill in all required fields") ]
  /\ field "travel_type" (PlanTrip.trip_record no_travel_type_form alice)
     = Some (JStr "").
Proof.
  split.
  - apply (proj1 save_trip_checks_four_fields signed_in 0%nat PlanTrip.initial).
    left. reflexivity.
  - apply (proj1 (proj2 save_trip_checks_four_fields) signed_in 0%nat
                 no_travel_type_form alice).
    + repeat split; discriminate.
    + reflexivity.
    + reflexivity.
Defined.

(* ================================================================== *)
(** * C7 and C8: List *)

(** The List routine of a page, for every answer of the collaborators. *)
Lemma fetch_run (p : list_page) (env : environment) (n : nat) (st : list_state p) :
  let o := run env n (fetch p) st in
  match env n AuthGetUser with
  | Fulfilled (Some u) =>
      match env (S n) (Select (table_of p) "user_id" (User.id u)
                              (order_column p) false) with
      | Fulfilled r =>
          match error r with
          | None =>
              trace o = [ Called AuthGetUser; Called (list_request p u) ]
              /\ items p (final o) = or_empty (data r)
          | Some e =>
              trace o = [ Called AuthGetUser; Called (list_request p u);
                          Did (ConsoleError (fetch_log_label p) e);
                          Did (ToastError (fetch_failure_message p)) ]
              /\ items p (final o) = items p st
          end
      | Rejected e =>
          trace o = [ Called AuthGetUser; Called (list_request p u);
                      Did (ConsoleError (fetch_log_label p) e);
                      Did (ToastError (fetch_failure_message p)) ]
          /\ items p (final o) = items p st
      end
  | Fulfilled None =>
      trace o = [ Called AuthGetUser; Did (Navigate "/auth") ]
      /\ items p (final o) = items p st
  | Rejected e =>
      trace o = [ Called AuthGetUser;
                  Did (ConsoleError (fetch_log_label p) e);
                  Did (ToastError (fetch_failure_message p)) ]
      /\ items p (final o) = items p st
  end.
Proof.
  destruct p; simpl;
    [ unfold Trips.fetchTrips | unfold Diary.fetchEntries
    | unfold Discover.fetchDestinations ]; simpl;
    (destruct (env n AuthGetUser) as [[u|]|e]; simpl;
     [ answer; [destruct x as [d [e|]]|]; simpl; split; reflexivity
     | split; reflexivity
     | split; reflexivity ]).
Qed.

(** The List routine catches whatever it throws: it always returns.  The
    create handlers call it without awaiting it, so nothing it does could
    reach their [catch]; running it in sequence is the same. *)
Lemma fetch_returns (p : list_page) (env : environment) (n : nat)
      (st : list_state p) :
  result (run env n (fetch p) st) = Returned tt.
Proof.
  destruct p; simpl;
    [ unfold Trips.fetchTrips | unfold Diary.fetchEntries
    | unfold Discover.fetchDestinations ]; simpl;
    (destruct (env n AuthGetUser) as [[u|]|e]; simpl;
     [ answer; [destruct x as [d [e|]]|]; reflexivity
     | reflexivity
     | reflexivity ]).
Qed.

Lemma requests_app (a b : list event) :
  requests (a ++ b) = (requests a ++ requests b)%list.
Proof.
  induction a as [|[r|x] a IH]; simpl; [reflexivity | now rewrite IH | exact IH].
Qed.

(** Create Entry after a successful insert: the rest of the run is the List
    routine of the page, started on the cleared dialog. *)
Lemma createEntry_run (env : environment) (n : nat) (st : Diary.State) (u : User.t) :
  Diary.title st <> "" -> Diary.content st <> "" ->
  env n AuthGetUser = Fulfilled (Some u) ->
  env (S n) (Insert Table.diary_entries (Diary.entry_record st u)) = Fulfilled None ->
  trace (run env n (Diary.createEntry st) st)
  = ([ Called AuthGetUser;
       Called (Insert Table.diary_entries (Diary.entry_record st u));
       Did (ToastSuccess "Entry created!") ]
     ++ trace (run env (S (S n)) (fetch ListDiary) (diary_dialog_cleared st)))%list
  /\ final (run env n (Diary.createEntry st) st)
     = final (run env (S (S n)) (fetch ListDiary) (diary_dialog_cleared st)).
Proof.
  intros T C U I. apply falsy_false in T, C.
  unfold Diary.createEntry. rewrite T, C. simpl. rewrite U. simpl. rewrite I.
  unfold Diary.fetchEntries. simpl.
  destruct (env (S (S n)) AuthGetUser) as [[u'|]|e]; simpl;
    [ answer; [destruct x as [d [e|]]|]; simpl; split; reflexivity
    | split; reflexivity
    | split; reflexivity ].
Qed.

Lemma saveDestination_run (env : environment) (n : nat) (st : Discover.State)
      (u : User.t) :
  Discover.name st <> "" -> Discover.location st <> "" ->
  env n AuthGetUser = Fulfilled (Some u) ->
  env (S n) (Insert Table.saved_destinations (Discover.destination_record st u))
  = Fulfilled None ->
  trace (run env n (Discover.saveDestination st) st)
  = ([ Called AuthGetUser;
       Called (Insert Table.saved_destinations (Discover.destination_record st u));
       Did (ToastSuccess "Destination saved!") ]
     ++ trace (run env (S (S n)) (fetch ListDiscover) (discover_dialog_cleared st)))%list
  /\ final (run env n (Discover.saveDestination st) st)
     = final (run env (S (S n)) (fetch ListDiscover) (discover_dialog_cleared st)).
Proof.
  intros T C U I. apply falsy_false in T, C.
  unfold Discover.saveDestination. rewrite T, C. simpl. rewrite U. simpl. rewrite I.
  unfold Discover.fetchDestinations. simpl.
  destruct (env (S (S n)) AuthGetUser) as [[u'|]|e]; simpl;
    [ answer; [destruct x as [d [e|]]|]; simpl; split; reflexivity
    | split; reflexivity
    | split; reflexivity ].
Qed.

(** A List that succeeds replaces the in-memory list by the rows returned. *)
Lemma fetch_replaces (p : list_page) (env : environment) (n : nat)
      (st : list_state p) (u : User.t) (rows : list (Table.row (table_of p))) :
  env n AuthGetUser = Fulfilled (Some u) ->
  env (S n) (Select (table_of p) "user_id" (User.id u) (order_column p) false)
  = Fulfilled (mkResponse (Some rows) None) ->
  trace (run env n (fetch p) st) = [ Called AuthGetUser; Called (list_request p u) ]
  /\ items p (final (run env n (fetch p) st)) = rows.
Proof.
  intros U Sel. pose proof (fetch_run p env n st) as R. cbv zeta in R.
  rewrite U, Sel in R. exact R.
Qed.

(** C7: on the Diary and Discover pages, after every successful insert the
    handler shows its success notification, clears the dialog and then runs
    the List routine of the page; the in-memory list it ends with is the one
    that routine produces.  When that List is answered, the requests of the
    whole run are the session query, the insert, a second session query and
    the user-scoped List, and the in-memory list becomes exactly the rows
    the store returned: nothing is appended locally. *)
Theorem insert_then_relist (env : environment) (n : nat) :
  (forall (st : Diary.State) (u : User.t),
      Diary.title st <> "" -> Diary.content st <> "" ->
      env n AuthGetUser = Fulfilled (Some u) ->
      env (S n) (Insert Table.diary_entries (Diary.entry_record st u))
      = Fulfilled None ->
      let o := run env n (Diary.createEntry st) st in
      let relist := run env (S (S n)) Diary.fetchEntries (diary_dialog_cleared st) in
      trace o = ([ Called AuthGetUser;
                   Called (Insert Table.diary_entries (Diary.entry_record st u));
                   Did (ToastSuccess "Entry created!") ] ++ trace relist)%list
      /\ Diary.entries (final o) = Diary.entries (final relist)
      /\ (forall (u' : User.t) (rows : list DiaryEntry.t),
             env (S (S n)) AuthGetUser = Fulfilled (Some u') ->
             env (S (S (S n))) (Select Table.diary_entries "user_id" (User.id u')
                                       "entry_date" false)
             = Fulfilled (mkResponse (Some rows) None) ->
             requests (trace o)
             = [ AuthGetUser;
                 Insert Table.diary_entries (Diary.entry_record st u);
                 AuthGetUser;
                 Select Table.diary_entries "user_id" (User.id u') "entry_date" false ]
             /\ Diary.entries (final o) = rows))
  /\ (forall (st : Discover.State) (u : User.t),
         Discover.name st <> "" -> Discover.location st <> "" ->
         env n AuthGetUser = Fulfilled (Some u) ->
         env (S n) (Insert Table.saved_destinations
                           (Discover.destination_record st u))
         = Fulfilled None ->
         let o := run env n (Discover.saveDestination st) st in
         let relist := run env (S (S n)) Discover.fetchDestinations
                           (discover_dialog_cleared st) in
         trace o = ([ Called AuthGetUser;
                      Called (Insert Table.saved_destinations
                                     (Discover.destination_record st u));
                      Did (ToastSuccess "Destination saved!") ] ++ trace relist)%list
         /\ Discover.destinations (final o) = Discover.destinations (final relist)
         /\ (forall (u' : User.t) (rows : list Destination.t),
                env (S (S n)) AuthGetUser = Fulfilled (Some u') ->
                env (S (S (S n))) (Select Table.saved_destinations "user_id"
                                          (User.id u') "created_at" false)
                = Fulfilled (mkResponse (Some rows) None) ->
                requests (trace o)
                = [ AuthGetUser;
                    Insert Table.saved_destinations (Discover.destination_record st u);
                    AuthGetUser;
                    Select Table.saved_destinations "user_id" (User.id u')
                           "created_at" false ]
                /\ Discover.destinations (final o) = rows)).
Proof.
  split.
  - intros st u T C U I o relist.
    destruct (@createEntry_run env n st u T C U I) as [Tr Fi].
    fold o in Tr, Fi. change (fetch ListDiary) with Diary.fetchEntries in Tr, Fi.
    fold relist in Tr, Fi.
    split; [exact Tr|]. split; [now rewrite Fi|].
    intros u' rows U' S'.
    destruct (@fetch_replaces ListDiary env (S (S n)) (diary_dialog_cleared st)
                              u' rows U' S') as [Tf If].
    change (fetch ListDiary) with Diary.fetchEntries in Tf, If.
    fold relist in Tf, If. rewrite Tr, Fi, Tf. split; [reflexivity | exact If].
  - intros st u T C U I o relist.
    destruct (@saveDestination_run env n st u T C U I) as [Tr Fi].
    fold o in Tr, Fi.
    change (fetch ListDiscover) with Discover.fetchDestinations in Tr, Fi.
    fold relist in Tr, Fi.
    split; [exact Tr|]. split; [now rewrite Fi|].
    intros u' rows U' S'.
    destruct (@fetch_replaces ListDiscover env (S (S n))
                              (discover_dialog_cleared st) u' rows U' S') as [Tf If].
    change (fetch ListDiscover) with Discover.fetchDestinations in Tf, If.
    fold relist in Tf, If. rewrite Tr, Fi, Tf. split; [reflexivity | exact If].
Qed.

(** C7 (witness): Alice creates a diary entry; the list shown afterwards is
    what the store returns for her, here the one entry it holds. *)
Lemma insert_then_relist_witness :
  requests (trace (run alice_on_two_diaries 0 (Diary.createEntry diary_draft)
                       diary_draft))
  = [ AuthGetUser;
      Insert Table.diary_entries (Diary.entry_record diary_draft alice);
      AuthGetUser;
      Select Table.diary_entries "user_id" "u-alice" "entry_date" false ]
  /\ Diary.entries (final (run alice_on_two_diaries 0 (Diary.createEntry diary_draft)
                               diary_draft)) = [kyoto].
Proof.
  refine (proj2 (proj2 (proj1 (insert_then_relist alice_on_two_diaries 0)
                              diary_draft alice _ _ eq_refl eq_refl))
                alice [kyoto] eq_refl eq_refl); discriminate.
Defined.

(** When the session is lost between the insert and the List, the List
    routine stops at its guard: it navigates to ["/auth"] and the in-memory
    list stays as it was. *)
Example relist_without_session :
  trace (run session_lost_after_two 0 (Diary.createEntry diary_draft) diary_draft)
  = [ Called AuthGetUser;
      Called (Insert Table.diary_entries (Diary.entry_record diary_draft alice));
      Did (ToastSuccess "Entry created!");
      Called AuthGetUser;
      Did (Navigate "/auth") ]
  /\ Diary.entries (final (run session_lost_after_two 0
                               (Diary.createEntry diary_draft) diary_draft))
     = Diary.entries diary_draft.
Proof. split; reflexivity. Qed.

Lemma fetch_scoped (p : list_page) (env : environment) (n : nat) (st : list_state p) :
  Forall (user_scoped env) (requests (trace (run env n (fetch p) st))).
Proof.
  pose proof (fetch_run p env n st) as R. cbv zeta in R.
  destruct (env n AuthGetUser) as [[u|]|e] eqn:U.
  - assert (Sc : user_scoped env (list_request p u)).
    { simpl. split; [reflexivity|]. exists n, u. auto. }
    destruct (env (S n) _) as [r|e]; [destruct (error r)|];
      destruct R as [T _]; rewrite T; simpl;
      (apply Forall_cons; [exact I|]); (apply Forall_cons; [exact Sc|]);
      apply Forall_nil.
  - destruct R as [T _]. rewrite T. simpl. repeat constructor.
  - destruct R as [T _]. rewrite T. simpl. repeat constructor.
Qed.

Lemma createEntry_scoped (env : environment) (n : nat) (st : Diary.State) :
  Forall (user_scoped env) (requests (trace (run env n (Diary.createEntry st) st))).
Proof.
  destruct (falsy (Diary.title st) || falsy (Diary.content st)) eqn:F.
  - unfold Diary.createEntry. rewrite F. simpl. constructor.
  - apply orb_false_iff in F. destruct F as [T C].
    destruct (env n AuthGetUser) as [[u|]|e] eqn:U.
    + destruct (env (S n) (Insert Table.diary_entries (Diary.entry_record st u)))
        as [[e|]|e] eqn:I.
      * unfold Diary.createEntry. rewrite T, C. simpl. rewrite U. simpl.
        rewrite I. rejections; simpl; repeat constructor.
      * apply falsy_false in T, C.
        destruct (@createEntry_run env n st u T C U I) as [Tr _]. rewrite Tr.
        rewrite requests_app. apply Forall_app. split.
        -- simpl. repeat constructor.
        -- apply fetch_scoped.
      * unfold Diary.createEntry. rewrite T, C. simpl. rewrite U. simpl.
        rewrite I. rejections; simpl; repeat constructor.
    + unfold Diary.createEntry. rewrite T, C. simpl. rewrite U. rejections; simpl;
      repeat constructor.
    + unfold Diary.createEntry. rewrite T, C. simpl. rewrite U. rejections; simpl;
      repeat constructor.
Qed.

Lemma saveDestination_scoped (env : environment) (n : nat) (st : Discover.State) :
  Forall (user_scoped env)
         (requests (trace (run env n (Discover.saveDestination st) st))).
Proof.
  destruct (falsy (Discover.name st) || falsy (Discover.location st)) eqn:F.
  - unfold Discover.saveDestination. rewrite F. simpl. constructor.
  - apply orb_false_iff in F. destruct F as [T C].
    destruct (env n AuthGetUser) as [[u|]|e] eqn:U.
    + destruct (env (S n) (Insert Table.saved_destinations
                                  (Discover.destination_record st u)))
        as [[e|]|e] eqn:I.
      * unfold Discover.saveDestination. rewrite T, C. simpl. rewrite U. simpl.
        rewrite I. rejections; simpl; repeat constructor.
      * apply falsy_false in T, C.
        destruct (@saveDestination_run env n st u T C U I) as [Tr _]. rewrite Tr.
        rewrite requests_app. apply Forall_app. split.
        -- simpl. repeat constructor.
        -- apply fetch_scoped.
      * unfold Discover.saveDestination. rewrite T, C. simpl. rewrite U. simpl.
        rewrite I. rejections; simpl; repeat constructor.
    + unfold Discover.saveDestination. rewrite T, C. simpl. rewrite U. rejections; simpl;
      repeat constructor.
    + unfold Discover.saveDestination. rewrite T, C. simpl. rewrite U. rejections; simpl;
      repeat constructor.
Qed.

Lemma saveTrip_scoped (env : environment) (n : nat) (st : PlanTrip.State) :
  Forall (user_scoped env)
         (requests (trace (run env n (PlanTrip.handleSaveTrip st) st))).
Proof.
  unfold PlanTrip.handleSaveTrip.
  destruct (falsy (PlanTrip.destination st) || falsy (PlanTrip.startDate st)
            || falsy (PlanTrip.endDate st) || falsy (PlanTrip.budget st)).
  - simpl. constructor.
  - simpl. destruct (env n AuthGetUser) as [[u|]|e]; simpl;
      [ answer; [destruct x|] | | ]; rejections; simpl; repeat constructor.
Qed.

Lemma getRecommendations_scoped (env : environment) (n : nat) (st : PlanTrip.State) :
  Forall (user_scoped env)
         (requests (trace (run env n (PlanTrip.handleGetRecommendations st) st))).
Proof.
  unfold PlanTrip.handleGetRecommendations.
  destruct (falsy (PlanTrip.destination st) || falsy (PlanTrip.budget st)
            || falsy (PlanTrip.travelType st)
            || (List.length (PlanTrip.selectedInterests st) =? 0)%nat).
  - simpl. constructor.
  - cbv zeta. destruct (js_le0 (PlanTrip.calculateDays st)).
    + simpl. constructor.
    + simpl. answer; [destruct x as [[d|] [e|]]|]; rejections; simpl;
        repeat constructor.
Qed.

(** Every handler of every page issues only user-scoped List requests. *)
Lemma handlers_scoped (env : environment) (tr : list event) :
  handler_trace env tr -> Forall (user_scoped env) (requests tr).
Proof.
  intros H. destruct H as [p n st|n st s|n st|n st i|n st|n st|n st|n st|p n st id
                 |p n st path L|p n st f].
  - destruct p; simpl.
    + unfold Index.onMount, Index.checkSession. simpl.
      answer; [destruct x|]; simpl; repeat constructor.
    + constructor.
    + apply (fetch_scoped ListTrips).
    + apply (fetch_scoped ListDiary).
    + apply (fetch_scoped ListDiscover).
  - destruct s; simpl; constructor.
  - unfold Index.handleSignOut. simpl.
    answer; [destruct x|]; simpl; repeat constructor.
  - simpl. constructor.
  - apply getRecommendations_scoped.
  - apply saveTrip_scoped.
  - apply createEntry_scoped.
  - apply saveDestination_scoped.
  - pose proof (delete_run p env n st id) as R. cbv zeta in R.
    destruct (env n (Delete (table_of p) "id" id)) as [[e|]|e];
      destruct R as [T _]; rewrite T; simpl; repeat constructor.
  - simpl. constructor.
  - simpl. constructor.
Qed.

(** C8: every List request issued by any handler of any page filters on
    [user_id] with the identifier of a user the session query returned; the
    List routine of a page sends, right after its session query, the
    request filtered on the identifier of the user that query returned, and
    no other List; and with a correctly configured store the in-memory list
    after the routine is either unchanged or holds only rows the store keeps
    for that user. *)
Theorem list_requests_user_scoped (env : environment) :
  (forall tr, handler_trace env tr ->
              Forall (user_scoped env) (requests tr))
  /\ (forall (p : list_page) (n : nat) (st : list_state p) (r : request),
         In r (requests (trace (run env n (fetch p) st))) ->
         r = AuthGetUser
         \/ exists u, env n AuthGetUser = Fulfilled (Some u)
                      /\ r = Select (table_of p) "user_id" (User.id u)
                                    (order_column p) false)
  /\ (forall (db : Store.database) (p : list_page) (n : nat) (st : list_state p),
         Store.well_configured db env ->
         items p (final (run env n (fetch p) st)) = items p st
         \/ exists u, env n AuthGetUser = Fulfilled (Some u)
                      /\ forall x, In x (items p (final (run env n (fetch p) st))) ->
                                   In (Store.mkStored (table_of p) (User.id u) x)
                                      (db (table_of p))).
Proof.
  split; [exact (@handlers_scoped env) | split].
  - intros p n st r H.
    pose proof (fetch_run p env n st) as R. cbv zeta in R.
    destruct (env n AuthGetUser) as [[u|]|e] eqn:U.
    + destruct (env (S n) _) as [x|e]; [destruct (error x)|];
        destruct R as [T _]; rewrite T in H; simpl in H;
        destruct H as [H|[H|[]]]; subst; eauto.
    + destruct R as [T _]. rewrite T in H. simpl in H.
      destruct H as [H|[]]; auto.
    + destruct R as [T _]. rewrite T in H. simpl in H.
      destruct H as [H|[]]; auto.
  - intros db p n st W.
    pose proof (fetch_run p env n st) as R. cbv zeta in R.
    destruct (env n AuthGetUser) as [[u|]|e] eqn:U.
    + destruct (env (S n) _) as [[d e]|e] eqn:Sel; simpl in R.
      * destruct e as [e|]; [left; apply R|].
        destruct R as [_ I]. right. exists u. split; [reflexivity|].
        intros x Hx. rewrite I in Hx. destruct d as [rows|]; [|contradiction].
        exact (W _ _ _ _ _ _ _ Sel x Hx).
      * left. apply R.
    + left. apply R.
    + left. apply R.
Qed.

(** C8 (witness): the store holds a diary entry of Alice and one of Bob;
    Alice mounts the Diary page and sees only her entry. *)
Lemma list_requests_user_scoped_witness :
  Store.well_configured two_diaries alice_on_two_diaries
  /\ Diary.entries (final (run alice_on_two_diaries 0 (fetch ListDiary)
                               (Diary.initial "2024-01-04"))) = [kyoto]
  /\ (Diary.entries (final (run alice_on_two_diaries 0 (fetch ListDiary)
                                (Diary.initial "2024-01-04")))
      = Diary.entries (Diary.initial "2024-01-04")
      \/ exists u, alice_on_two_diaries 0%nat AuthGetUser = Fulfilled (Some u)
                   /\ forall x,
                       In x (Diary.entries
                               (final (run alice_on_two_diaries 0 (fetch ListDiary)
                                           (Diary.initial "2024-01-04")))) ->
                       In (Store.mkStored Table.diary_entries (User.id u) x)
                          (two_diaries Table.diary_entries)).
Proof.
  assert (W : Store.well_configured two_diaries alice_on_two_diaries).
  { intros n t v o a rows e H x Hx. unfold alice_on_two_diaries in H. simpl in H.
    inversion H; subst. clear H.
    unfold Store.select_where_user in Hx. apply in_map_iff in Hx.
    destruct Hx as ([w y] & E & Hy). apply filter_In in Hy.
    destruct Hy as [Hy Ew]. simpl in E, Ew. apply String.eqb_eq in Ew.
    subst. exact Hy. }
  split; [exact W|]. split; [reflexivity|].
  exact (proj2 (proj2 (list_requests_user_scoped alice_on_two_diaries))
               two_diaries ListDiary 0%nat (Diary.initial "2024-01-04") W).
Defined.

(* ================================================================== *)
(** * Further properties: the interest badges *)

Lemma includes_In (l : list string) (x : string) :
  PlanTrip.includes l x = true <-> In x l.
Proof.
  unfold PlanTrip.includes. rewrite existsb_exists. split.
  - intros (y & H & E). apply String.eqb_eq in E. now subst.
  - intros H. exists x. split; [exact H | apply String.eqb_refl].
Qed.

Lemma includes_not_In (l : list string) (x : string) :
  PlanTrip.includes l x = false <-> ~ In x l.
Proof.
  rewrite <- includes_In. destruct (PlanTrip.includes l x); split; congruence.
Qed.

Lemma toggle_run (env : environment) (n : nat) (interest : string)
      (st : PlanTrip.State) :
  PlanTrip.selectedInterests (final (run env n (PlanTrip.toggleInterest interest) st))
  = if PlanTrip.includes (PlanTrip.selectedInterests st) interest
    then filter (fun i => negb (i =? interest)%string) (PlanTrip.selectedInterests st)
    else (PlanTrip.selectedInterests st ++ [interest])%list.
Proof. reflexivity. Qed.

Lemma In_removed (l : list string) (i x : string) :
  In x (filter (fun j => negb (j =? i)%string) l) <-> In x l /\ x <> i.
Proof.
  rewrite filter_In, negb_true_iff, String.eqb_neq. tauto.
Qed.

Lemma removed_absent (l : list string) (i : string) :
  ~ In i l -> filter (fun j => negb (j =? i)%string) l = l.
Proof.
  induction l as [|x l IH]; simpl; intros H; [reflexivity|].
  destruct (String.eqb_spec x i) as [E|E]; simpl.
  - exfalso. apply H. now left.
  - f_equal. apply IH. intros K. apply H. now right.
Qed.

(** X1: clicking a badge flips whether that interest is selected and leaves
    every other interest as it was. *)
Theorem toggle_flips_membership (interest : string) (st : PlanTrip.State) :
  PlanTrip.includes (after_toggle interest st) interest
  = negb (PlanTrip.includes (PlanTrip.selectedInterests st) interest)
  /\ (forall other, other <> interest ->
        PlanTrip.includes (after_toggle interest st) other
        = PlanTrip.includes (PlanTrip.selectedInterests st) other).
Proof.
  unfold after_toggle. rewrite toggle_run.
  destruct (PlanTrip.includes (PlanTrip.selectedInterests st) interest) eqn:E.
  - split.
    + apply includes_not_In. rewrite In_removed. tauto.
    + intros other N.
      destruct (PlanTrip.includes (PlanTrip.selectedInterests st) other) eqn:O.
      * apply includes_In. apply In_removed. split; [now apply includes_In | exact N].
      * apply includes_not_In. rewrite In_removed.
        apply includes_not_In in O. tauto.
  - split.
    + apply includes_In. apply in_or_app. right. now left.
    + intros other N.
      destruct (PlanTrip.includes (PlanTrip.selectedInterests st) other) eqn:O.
      * apply includes_In. apply in_or_app. left. now apply includes_In.
      * apply includes_not_In. apply includes_not_In in O.
        intros H. apply in_app_or in H. destruct H as [H|[H|[]]]; auto.
Qed.

(** X1 (witness): "Nature" is added to the Tokyo form and "Food" stays. *)
Lemma toggle_flips_membership_witness :
  PlanTrip.includes (after_toggle "Nature" tokyo_form) "Food" = true.
Proof.
  rewrite (proj2 (toggle_flips_membership "Nature" tokyo_form) "Food");
    [reflexivity | discriminate].
Defined.

(** X2: the selection never holds an interest twice and never leaves the
    offered badges: both facts hold at the start and are kept by every
    click on an offered badge. *)
Theorem toggle_keeps_selection_sound (interest : string) (st : PlanTrip.State) :
  (NoDup (PlanTrip.selectedInterests PlanTrip.initial)
   /\ incl (PlanTrip.selectedInterests PlanTrip.initial) interestOptions)
  /\ (NoDup (PlanTrip.selectedInterests st) -> NoDup (after_toggle interest st))
  /\ (In interest interestOptions ->
      incl (PlanTrip.selectedInterests st) interestOptions ->
      incl (after_toggle interest st) interestOptions).
Proof.
  split; [split; [constructor | intros x []] | split].
  - intros ND. unfold after_toggle. rewrite toggle_run.
    destruct (PlanTrip.includes (PlanTrip.selectedInterests st) interest) eqn:E.
    + now apply NoDup_filter.
    + apply includes_not_In in E.
      apply NoDup_app; [exact ND | repeat constructor; intros [] |].
      intros x Hx [Hi|[]]. subst. contradiction.
  - intros Hi Hs x Hx. unfold after_toggle in Hx. rewrite toggle_run in Hx.
    destruct (PlanTrip.includes (PlanTrip.selectedInterests st) interest).
    + apply In_removed in Hx. apply Hs. tauto.
    + apply in_app_or in Hx. destruct Hx as [Hx|[Hx|[]]]; [now apply Hs | now subst].
Qed.

(** X2 (witness): adding "Nature" to the Tokyo form. *)
Lemma toggle_keeps_selection_sound_witness :
  NoDup (after_toggle "Nature" tokyo_form)
  /\ incl (after_toggle "Nature" tokyo_form) interestOptions.
Proof.
  split.
  - apply (proj1 (proj2 (toggle_keeps_selection_sound "Nature" tokyo_form))).
    repeat constructor; simpl; intuition discriminate.
  - apply (proj2 (proj2 (toggle_keeps_selection_sound "Nature" tokyo_form))).
    + simpl. tauto.
    + intros x [H|[H|[]]]; subst; simpl; tauto.
Defined.

(** X3: clicking the same badge twice.  When the interest was not selected
    the selection is restored exactly; when it was selected (once) it ends
    selected again but moved to the end of the list. *)
Theorem toggle_twice (env : environment) (n m : nat) (interest : string)
        (st : PlanTrip.State) :
  let st1 := final (run env n (PlanTrip.toggleInterest interest) st) in
  let st2 := final (run env m (PlanTrip.toggleInterest interest) st1) in
  (~ In interest (PlanTrip.selectedInterests st) ->
   PlanTrip.selectedInterests st2 = PlanTrip.selectedInterests st)
  /\ (In interest (PlanTrip.selectedInterests st) ->
      PlanTrip.selectedInterests st2
      = (filter (fun i => negb (i =? interest)%string)
                (PlanTrip.selectedInterests st) ++ [interest])%list).
Proof.
  intros st1 st2. unfold st2. rewrite toggle_run. unfold st1. rewrite toggle_run.
  split; intros H.
  - apply includes_not_In in H. rewrite H.
    assert (I : PlanTrip.includes (PlanTrip.selectedInterests st ++ [interest])
                                  interest = true).
    { apply includes_In. apply in_or_app. right. now left. }
    rewrite I. rewrite filter_app. simpl. rewrite String.eqb_refl. simpl.
    rewrite app_nil_r. apply includes_not_In in H. now apply removed_absent.
  - apply includes_In in H. rewrite H.
    assert (I : PlanTrip.includes
                  (filter (fun i => negb (i =? interest)%string)
                          (PlanTrip.selectedInterests st)) interest = false).
    { apply includes_not_In. rewrite In_removed. tauto. }
    rewrite I. reflexivity.
Qed.

(** X3 (witness): "Nature" clicked twice on the Tokyo form, then "Food". *)
Lemma toggle_twice_witness :
  PlanTrip.selectedInterests
    (final (run signed_in 1 (PlanTrip.toggleInterest "Nature")
                (final (run signed_in 0 (PlanTrip.toggleInterest "Nature")
                            tokyo_form))))
  = ["Food"; "Culture"]
  /\ PlanTrip.selectedInterests
       (final (run signed_in 1 (PlanTrip.toggleInterest "Food")
                   (final (run signed_in 0 (PlanTrip.toggleInterest "Food")
                               tokyo_form))))
     = ["Culture"; "Food"].
Proof.
  split.
  - apply (proj1 (toggle_twice signed_in 0 1 "Nature" tokyo_form)).
    simpl. intuition discriminate.
  - apply (proj2 (toggle_twice signed_in 0 1 "Food" tokyo_form)).
    simpl. tauto.
Defined.

(* ================================================================== *)
(** * Further properties: the List routine *)

(** Case analysis on every answer a handler consumes. *)
Ltac answers :=
  repeat (simpl;
          match goal with
          | |- context [match ?env ?n ?r with
                        | Fulfilled _ => _
                        | Rejected _ => _
                        end] =>
              let E := fresh "E" in destruct (env n r) as [?x|?e] eqn:E
          | x : ?T |- _ =>
              let T' := eval hnf in T in
              lazymatch T' with
              | response _ => destruct x as [? [?|]]
              | option _ => destruct x
              | thrown => destruct x
              end
          end).

(** The state the List routine ends in: only the list and the [loading]
    flag can differ from the state it started in. *)
Lemma fetch_final (p : list_page) (env : environment) (n : nat) (st : list_state p) :
  final (run env n (fetch p) st)
  = loaded p (items p (final (run env n (fetch p) st))) st.
Proof.
  destruct p; destruct st; simpl;
    [ unfold Trips.fetchTrips | unfold Diary.fetchEntries
    | unfold Discover.fetchDestinations ]; answers; reflexivity.
Qed.

(** X4: in every environment the List routine ends with the [loading] flag
    cleared, and only the in-memory list and that flag can have changed. *)
Theorem list_never_stuck_loading (p : list_page) (env : environment) (n : nat)
        (st : list_state p) :
  page_loading p (final (run env n (fetch p) st)) = false
  /\ final (run env n (fetch p) st)
     = loaded p (items p (final (run env n (fetch p) st))) st.
Proof.
  split; [| apply fetch_final].
  rewrite fetch_final. destruct p; reflexivity.
Qed.

(** X5: whenever the List routine shows an error notification it is the
    page's fixed "Failed to load" message, whatever the error was, and the
    in-memory list is left as it was. *)
Theorem list_failure_is_generic (p : list_page) (env : environment) (n : nat)
        (st : list_state p) (m : string) :
  In m (error_toasts (trace (run env n (fetch p) st))) ->
  m = fetch_failure_message p
  /\ items p (final (run env n (fetch p) st)) = items p st.
Proof.
  pose proof (fetch_run p env n st) as R. cbv zeta in R.
  destruct (env n AuthGetUser) as [[u|]|e].
  - destruct (env (S n) _) as [r|e]; [destruct (error r)|];
      destruct R as [T I]; rewrite T; simpl; intros H;
      try contradiction; destruct H as [H|[]]; (split; [now subst | exact I]).
  - destruct R as [T I]. rewrite T. simpl. contradiction.
  - destruct R as [T I]. rewrite T. simpl. intros [H|[]].
    split; [now subst | exact I].
Qed.

(** X5 (witness): the Diary page holding two entries when every call fails. *)
Lemma list_failure_is_generic_witness :
  "Failed to load diary entries" = fetch_failure_message ListDiary
  /\ Diary.entries (final (run failing 0 (fetch ListDiary) diary_with_two))
     = [kyoto; osaka].
Proof.
  apply (@list_failure_is_generic ListDiary failing 0%nat diary_with_two
                                  "Failed to load diary entries").
  simpl. tauto.
Defined.

(** X6: a List answered without error and with no data silently empties
    the in-memory list: no notification is shown. *)
Theorem list_null_data_empties (p : list_page) (env : environment) (n : nat)
        (st : list_state p) (u : User.t) :
  env n AuthGetUser = Fulfilled (Some u) ->
  env (S n) (Select (table_of p) "user_id" (User.id u) (order_column p) false)
  = Fulfilled (mkResponse None None) ->
  items p (final (run env n (fetch p) st)) = []
  /\ trace (run env n (fetch p) st) = [ Called AuthGetUser; Called (list_request p u) ].
Proof.
  intros U Sel. pose proof (fetch_run p env n st) as R. cbv zeta in R.
  rewrite U, Sel in R. simpl in R. tauto.
Qed.

(** X6 (witness): the Diary page holding two entries. *)
Lemma list_null_data_empties_witness :
  Diary.entries (final (run null_data 0 (fetch ListDiary) diary_with_two)) = [].
Proof.
  apply (@list_null_data_empties ListDiary null_data 0%nat diary_with_two alice
                                 eq_refl eq_refl).
Defined.

(* ================================================================== *)
(** * Further properties: the create dialogs *)

(** X7: Create Entry and Save Destination require only the title and the
    content, respectively the name and the location.  When one of them is
    empty the handler shows its validation notification, sends nothing and
    leaves the page state as it was; when both are filled the handler starts
    with the session query, whatever the other fields hold. *)
Theorem create_validation (env : environment) (n : nat) :
  (forall st : Diary.State,
      (Diary.title st = "" \/ Diary.content st = "" ->
       trace (run env n (Diary.createEntry st) st)
       = [ Did (ToastError "Please fill in title and content") ]
       /\ final (run env n (Diary.createEntry st) st) = st)
      /\ (diary_fields_filled st ->
          exists rest,
            trace (run env n (Diary.createEntry st) st) = Called AuthGetUser :: rest))
  /\ (forall st : Discover.State,
         (Discover.name st = "" \/ Discover.location st = "" ->
          trace (run env n (Discover.saveDestination st) st)
          = [ Did (ToastError "Please fill in name and location") ]
          /\ final (run env n (Discover.saveDestination st) st) = st)
         /\ (discover_fields_filled st ->
             exists rest,
               trace (run env n (Discover.saveDestination st) st)
               = Called AuthGetUser :: rest)).
Proof.
  split; intros st; split.
  - intros H. unfold Diary.createEntry.
    assert (E : falsy (Diary.title st) || falsy (Diary.content st) = true).
    { rewrite orb_true_iff, !falsy_true. exact H. }
    rewrite E. split; reflexivity.
  - intros [T C]. apply falsy_false in T, C. unfold Diary.createEntry.
    rewrite T, C. simpl. eexists. reflexivity.
  - intros H. unfold Discover.saveDestination.
    assert (E : falsy (Discover.name st) || falsy (Discover.location st) = true).
    { rewrite orb_true_iff, !falsy_true. exact H. }
    rewrite E. split; reflexivity.
  - intros [T C]. apply falsy_false in T, C. unfold Discover.saveDestination.
    rewrite T, C. simpl. eexists. reflexivity.
Qed.

(** X7 (witness): a diary draft without a title is refused and kept. *)
Lemma create_validation_witness :
  trace (run signed_in 0 (Diary.createEntry untitled_draft) untitled_draft)
  = [ Did (ToastError "Please fill in title and content") ]
  /\ final (run signed_in 0 (Diary.createEntry untitled_draft) untitled_draft)
     = untitled_draft.
Proof.
  apply (proj1 (proj1 (create_validation signed_in 0) untitled_draft)).
  left. reflexivity.
Defined.

(** Create Entry on a filled dialog, up to the answer of the insert. *)
Lemma createEntry_failure (env : environment) (n : nat) (st : Diary.State) :
  diary_fields_filled st ->
  let shown := caught_and_shown "Error creating entry:" "Failed to create entry" in
  match env n AuthGetUser with
  | Fulfilled (Some u) =>
      match env (S n) (Insert Table.diary_entries (Diary.entry_record st u)) with
      | Fulfilled None => True
      | Fulfilled (Some e) =>
          trace (run env n (Diary.createEntry st) st)
          = (Called AuthGetUser
             :: Called (Insert Table.diary_entries (Diary.entry_record st u))
             :: shown e)
          /\ final (run env n (Diary.createEntry st) st) = st
      | Rejected v =>
          trace (run env n (Diary.createEntry st) st)
          = (Called AuthGetUser
             :: Called (Insert Table.diary_entries (Diary.entry_record st u))
             :: shown v)
          /\ final (run env n (Diary.createEntry st) st) = st
      end
  | Fulfilled None =>
      trace (run env n (Diary.createEntry st) st)
      = Called AuthGetUser :: shown (mkError "Not authenticated")
      /\ final (run env n (Diary.createEntry st) st) = st
  | Rejected v =>
      trace (run env n (Diary.createEntry st) st) = Called AuthGetUser :: shown v
      /\ final (run env n (Diary.createEntry st) st) = st
  end.
Proof.
  intros [T C]. apply falsy_false in T, C. unfold Diary.createEntry.
  rewrite T, C. simpl.
  destruct (env n AuthGetUser) as [[u|]|[e| |]]; simpl; try (split; reflexivity).
  destruct (env (S n) _) as [[e|]|[e| |]]; simpl; trivial; split; reflexivity.
Qed.

Lemma saveDestination_failure (env : environment) (n : nat) (st : Discover.State) :
  discover_fields_filled st ->
  let shown := caught_and_shown "Error saving destination:"
                                "Failed to save destination" in
  match env n AuthGetUser with
  | Fulfilled (Some u) =>
      match env (S n) (Insert Table.saved_destinations
                              (Discover.destination_record st u)) with
      | Fulfilled None => True
      | Fulfilled (Some e) =>
          trace (run env n (Discover.saveDestination st) st)
          = (Called AuthGetUser
             :: Called (Insert Table.saved_destinations
                               (Discover.destination_record st u))
             :: shown e)
          /\ final (run env n (Discover.saveDestination st) st) = st
      | Rejected v =>
          trace (run env n (Discover.saveDestination st) st)
          = (Called AuthGetUser
             :: Called (Insert Table.saved_destinations
                               (Discover.destination_record st u))
             :: shown v)
          /\ final (run env n (Discover.saveDestination st) st) = st
      end
  | Fulfilled None =>
      trace (run env n (Discover.saveDestination st) st)
      = Called AuthGetUser :: shown (mkError "Not authenticated")
      /\ final (run env n (Discover.saveDestination st) st) = st
  | Rejected v =>
      trace (run env n (Discover.saveDestination st) st)
      = Called AuthGetUser :: shown v
      /\ final (run env n (Discover.saveDestination st) st) = st
  end.
Proof.
  intros [T C]. apply falsy_false in T, C. unfold Discover.saveDestination.
  rewrite T, C. simpl.
  destruct (env n AuthGetUser) as [[u|]|[e| |]]; simpl; try (split; reflexivity).
  destruct (env (S n) _) as [[e|]|[e| |]]; simpl; trivial; split; reflexivity.
Qed.

(** X8: when the insert of Create Entry or Save Destination is refused by
    the store, the notification shows the store's message verbatim (the
    handler's own fallback text when the message is empty), no List is
    issued, and the page state is untouched: the dialog stays open with
    what the user typed. *)
Theorem create_failure_keeps_dialog (env : environment) (n : nat) (e : Error) :
  (forall (st : Diary.State) (u : User.t),
      diary_fields_filled st ->
      env n AuthGetUser = Fulfilled (Some u) ->
      env (S n) (Insert Table.diary_entries (Diary.entry_record st u))
      = Fulfilled (Some e) ->
      error_toasts (trace (run env n (Diary.createEntry st) st))
      = [ if falsy (message e) then "Failed to create entry" else message e ]
      /\ requests (trace (run env n (Diary.createEntry st) st))
         = [ AuthGetUser; Insert Table.diary_entries (Diary.entry_record st u) ]
      /\ final (run env n (Diary.createEntry st) st) = st)
  /\ (forall (st : Discover.State) (u : User.t),
         discover_fields_filled st ->
         env n AuthGetUser = Fulfilled (Some u) ->
         env (S n) (Insert Table.saved_destinations
                           (Discover.destination_record st u))
         = Fulfilled (Some e) ->
         error_toasts (trace (run env n (Discover.saveDestination st) st))
         = [ if falsy (message e) then "Failed to save destination"
             else message e ]
         /\ requests (trace (run env n (Discover.saveDestination st) st))
            = [ AuthGetUser;
                Insert Table.saved_destinations (Discover.destination_record st u) ]
         /\ final (run env n (Discover.saveDestination st) st) = st).
Proof.
  split; intros st u F U I.
  - pose proof (@createEntry_failure env n st F) as R. cbv zeta in R.
    rewrite U, I in R. destruct R as [T S]. rewrite T, S. repeat split.
  - pose proof (@saveDestination_failure env n st F) as R. cbv zeta in R.
    rewrite U, I in R. destruct R as [T S]. rewrite T, S. repeat split.
Qed.

(** X8 (witness): the filled diary draft refused with "network error". *)
Lemma create_failure_keeps_dialog_witness :
  error_toasts (trace (run failing 0 (Diary.createEntry diary_draft) diary_draft))
  = [ "network error" ]
  /\ final (run failing 0 (Diary.createEntry diary_draft) diary_draft) = diary_draft.
Proof.
  destruct (proj1 (create_failure_keeps_dialog failing 0 (mkError "network error"))
                  diary_draft alice) as (A & _ & B);
    [ split; discriminate | reflexivity | reflexivity | ].
  split; [exact A | exact B].
Defined.

(** X9: when nobody is signed in, Create Entry and Save Destination send no
    insert and do not navigate: they show "Not authenticated" and leave the
    page state untouched. *)
Theorem create_without_session (env : environment) (n : nat) :
  env n AuthGetUser = Fulfilled None ->
  (forall st : Diary.State,
      diary_fields_filled st ->
      trace (run env n (Diary.createEntry st) st)
      = [ Called AuthGetUser;
          Did (ConsoleError "Error creating entry:" (mkError "Not authenticated"));
          Did (ToastError "Not authenticated") ]
      /\ final (run env n (Diary.createEntry st) st) = st)
  /\ (forall st : Discover.State,
         discover_fields_filled st ->
         trace (run env n (Discover.saveDestination st) st)
         = [ Called AuthGetUser;
             Did (ConsoleError "Error saving destination:"
                               (mkError "Not authenticated"));
             Did (ToastError "Not authenticated") ]
         /\ final (run env n (Discover.saveDestination st) st) = st).
Proof.
  intros U. split; intros st F.
  - pose proof (@createEntry_failure env n st F) as R. cbv zeta in R.
    now rewrite U in R.
  - pose proof (@saveDestination_failure env n st F) as R. cbv zeta in R.
    now rewrite U in R.
Qed.

(** X9 (witness): the filled drafts with nobody signed in. *)
Lemma create_without_session_witness :
  final (run signed_out 0 (Diary.createEntry diary_draft) diary_draft) = diary_draft
  /\ final (run signed_out 0 (Discover.saveDestination discover_draft) discover_draft)
     = discover_draft.
Proof.
  split.
  - apply (proj1 (@create_without_session signed_out 0%nat eq_refl) diary_draft).
    split; discriminate.
  - apply (proj2 (@create_without_session signed_out 0%nat eq_refl) discover_draft).
    split; discriminate.
Defined.

(** X10: after a successful insert the dialog is closed and its text fields
    are cleared, whatever the List that follows does; the entry date of the
    Diary dialog is not reset, and the page ends with [loading] cleared. *)
Theorem create_success_clears_dialog (env : environment) (n : nat) :
  (forall (st : Diary.State) (u : User.t),
      diary_fields_filled st ->
      env n AuthGetUser = Fulfilled (Some u) ->
      env (S n) (Insert Table.diary_entries (Diary.entry_record st u))
      = Fulfilled None ->
      let st' := final (run env n (Diary.createEntry st) st) in
      Diary.dialogOpen st' = false /\ Diary.title st' = ""
      /\ Diary.content st' = "" /\ Diary.location st' = ""
      /\ Diary.entryDate st' = Diary.entryDate st
      /\ Diary.loading st' = false)
  /\ (forall (st : Discover.State) (u : User.t),
         discover_fields_filled st ->
         env n AuthGetUser = Fulfilled (Some u) ->
         env (S n) (Insert Table.saved_destinations
                           (Discover.destination_record st u))
         = Fulfilled None ->
         let st' := final (run env n (Discover.saveDestination st) st) in
         Discover.dialogOpen st' = false /\ Discover.name st' = ""
         /\ Discover.location st' = "" /\ Discover.description st' = ""
         /\ Discover.category st' = "" /\ Discover.loading st' = false).
Proof.
  split; intros st u [T C] U I st'.
  - destruct (@createEntry_run env n st u T C U I) as [_ F].
    unfold st'. rewrite F, (fetch_final ListDiary). repeat split.
  - destruct (@saveDestination_run env n st u T C U I) as [_ F].
    unfold st'. rewrite F, (fetch_final ListDiscover). repeat split.
Qed.

(** X10 (witness): Alice creates the diary draft. *)
Lemma create_success_clears_dialog_witness :
  Diary.title (final (run signed_in 0 (Diary.createEntry diary_draft) diary_draft))
  = ""
  /\ Diary.entryDate (final (run signed_in 0 (Diary.createEntry diary_draft)
                                 diary_draft)) = "2024-01-04".
Proof.
  destruct (proj1 (create_success_clears_dialog signed_in 0) diary_draft alice)
    as (_ & A & _ & _ & B & _);
    [ split; discriminate | reflexivity | reflexivity | ].
  split; [exact A | exact B].
Defined.

(* ================================================================== *)
(** * Further properties: ownership of inserted records *)










(* ================================================================== *)
(** * Further properties: the PlanTrip actions *)

(** Get Recommendations once both checks have passed. *)
Lemma getRecommendations_run (env : environment) (n : nat) (st : PlanTrip.State) :
  recommendation_form_filled st ->
  js_le0 (PlanTrip.calculateDays st) = false ->
  let call := FunctionsInvoke "travel-recommendations"
                (PlanTrip.recommendation_body st (PlanTrip.calculateDays st)) in
  let o := run env n (PlanTrip.handleGetRecommendations st) st in
  match env n call with
  | Fulfilled (mkResponse (Some text) None) =>
      trace o = [ Called call; Did (ToastSuccess "AI recommendations generated!") ]
      /\ final o = PlanTrip.setLoading false (PlanTrip.setAiRecommendations text st)
  | Fulfilled (mkResponse _ (Some e)) =>
      trace o = Called call
                :: caught_and_shown "Error getting recommendations:"
                                    "Failed to get recommendations" e
      /\ final o = PlanTrip.setLoading false st
  | Rejected v =>
      trace o = Called call
                :: caught_and_shown "Error getting recommendations:"
                                    "Failed to get recommendations" v
      /\ final o = PlanTrip.setLoading false st
  | Fulfilled (mkResponse None None) =>
      trace o = Called call
                :: caught_and_shown "Error getting recommendations:"
                                    "Failed to get recommendations"
                                    (type_error "null" "recommendations")
      /\ final o = PlanTrip.setLoading false st
  end.
Proof.
  intros F D. apply field_check_passes in F.
  unfold PlanTrip.handleGetRecommendations. rewrite F. cbv zeta. rewrite D.
  destruct st. simpl.
  destruct (env n _) as [[[d|] [e|]]|[e| |]]; simpl; split; reflexivity.
Qed.

(** X12: when the recommendation function answers with a text, the text
    becomes the editable recommendation exactly as returned and the page
    leaves its requesting state; when it answers with an error, the
    notification shows the error's message (the fallback text when it is
    empty), and the recommendation already on the page is kept.  No other
    field of the form changes in either case. *)
Theorem recommendation_outcomes (env : environment) (n : nat) (st : PlanTrip.State) :
  recommendation_form_filled st ->
  positive (PlanTrip.calculateDays st) ->
  let call := FunctionsInvoke "travel-recommendations"
                (PlanTrip.recommendation_body st (PlanTrip.calculateDays st)) in
  let o := run env n (PlanTrip.handleGetRecommendations st) st in
  (forall text,
      env n call = Fulfilled (mkResponse (Some text) None) ->
      final o = PlanTrip.setLoading false (PlanTrip.setAiRecommendations text st)
      /\ trace o = [ Called call;
                     Did (ToastSuccess "AI recommendations generated!") ])
  /\ (forall d e,
         env n call = Fulfilled (mkResponse d (Some e)) ->
         final o = PlanTrip.setLoading false st
         /\ error_toasts (trace o)
            = [ if falsy (message e) then "Failed to get recommendations"
                else message e ]).
Proof.
  intros F P call o.
  assert (D : js_le0 (PlanTrip.calculateDays st) = false).
  { destruct (PlanTrip.calculateDays st); simpl in *; [reflexivity|].
    apply Z.leb_gt. exact P. }
  pose proof (@getRecommendations_run env n st F D) as R. cbv zeta in R.
  fold call in R. fold o in R. split.
  - intros text E. rewrite E in R. destruct R as [T S]. auto.
  - intros d e E. rewrite E in R.
    destruct d; destruct R as [T S]; rewrite T; auto.
Qed.

(** X12 (witness): the Tokyo form answered with a text, and answered with
    an error that has no message. *)
Lemma recommendation_outcomes_witness :
  PlanTrip.aiRecommendations
    (final (run signed_in 0 (PlanTrip.handleGetRecommendations tokyo_form)
                tokyo_form)) = "Day 1: ..."
  /\ error_toasts
       (trace (run silent_failure 0 (PlanTrip.handleGetRecommendations tokyo_form)
                   tokyo_form))
     = [ "Failed to get recommendations" ].
Proof.
  split.
  - destruct (proj1 (@recommendation_outcomes signed_in 0%nat tokyo_form
                       ltac:(repeat split; discriminate)
                       ltac:(vm_compute; reflexivity))
                    "Day 1: ..." eq_refl) as [S _].
    rewrite S. reflexivity.
  - destruct (proj2 (@recommendation_outcomes silent_failure 0%nat tokyo_form
                       ltac:(repeat split; discriminate)
                       ltac:(vm_compute; reflexivity))
                    None (mkError "") eq_refl) as [_ T].
    exact T.
Defined.


(** X14: with the destination, budget, travel type and an interest filled
    in but a date left empty, the day count is 0 and the request is refused
    with "End date must be after start date". *)
Theorem missing_date_is_reported_as_order (env : environment) (n : nat)
        (st : PlanTrip.State) :
  recommendation_form_filled st ->
  PlanTrip.startDate st = "" \/ PlanTrip.endDate st = "" ->
  PlanTrip.calculateDays st = Num 0
  /\ trace (run env n (PlanTrip.handleGetRecommendations st) st)
     = [ Did (ToastError "End date must be after start date") ].
Proof.
  intros F H.
  assert (Z : PlanTrip.calculateDays st = Num 0).
  { unfold PlanTrip.calculateDays.
    destruct H as [H|H]; rewrite H; simpl; [|rewrite orb_true_r]; reflexivity. }
  split; [exact Z|].
  apply field_check_passes in F.
  unfold PlanTrip.handleGetRecommendations. rewrite F. cbv zeta. rewrite Z.
  reflexivity.
Qed.

(** X14 (witness): the form without dates. *)
Lemma missing_date_is_reported_as_order_witness :
  PlanTrip.calculateDays no_dates_form = Num 0
  /\ trace (run signed_in 0 (PlanTrip.handleGetRecommendations no_dates_form)
                no_dates_form)
     = [ Did (ToastError "End date must be after start date") ].
Proof.
  apply missing_date_is_reported_as_order.
  - repeat split; discriminate.
  - left. reflexivity.
Defined.

(** Save Trip: the state it ends in. *)
Lemma saveTrip_final (env : environment) (n : nat) (st : PlanTrip.State) :
  final (run env n (PlanTrip.handleSaveTrip st) st)
  = if falsy (PlanTrip.destination st) || falsy (PlanTrip.startDate st)
       || falsy (PlanTrip.endDate st) || falsy (PlanTrip.budget st)
    then st else PlanTrip.setLoading false st.
Proof.
  unfold PlanTrip.handleSaveTrip.
  destruct (falsy (PlanTrip.destination st) || falsy (PlanTrip.startDate st)
            || falsy (PlanTrip.endDate st) || falsy (PlanTrip.budget st));
    [reflexivity|].
  destruct st. answers; reflexivity.
Qed.

(** X15: Save Trip never edits the form: whatever the collaborators answer,
    every field but [loading] ends as it started, and once the validation
    has passed [loading] ends cleared.  When the store refuses the insert
    the notification shows the store's message (the fallback text when it
    is empty) and the page does not navigate. *)
Theorem save_trip_keeps_form (env : environment) (n : nat) (st : PlanTrip.State) :
  let o := run env n (PlanTrip.handleSaveTrip st) st in
  PlanTrip.setLoading false (final o) = PlanTrip.setLoading false st
  /\ (save_form_filled st -> PlanTrip.loading (final o) = false)
  /\ (forall u e,
         save_form_filled st ->
         env n AuthGetUser = Fulfilled (Some u) ->
         env (S n) (Insert Table.trips (PlanTrip.trip_record st u))
         = Fulfilled (Some e) ->
         error_toasts (trace o)
         = [ if falsy (message e) then "Failed to save trip" else message e ]
         /\ navigations (trace o) = []).
Proof.
  intros o. unfold o. rewrite saveTrip_final. split; [| split].
  - destruct (_ || _); reflexivity.
  - intros F. rewrite (save_check_passes F). reflexivity.
  - intros u e F U I. rewrite (@save_trip_run env n st u F U), I. split; reflexivity.
Qed.

(** X15 (witness): the Tokyo form refused by the store. *)
Lemma save_trip_keeps_form_witness :
  error_toasts (trace (run failing 0 (PlanTrip.handleSaveTrip tokyo_form) tokyo_form))
  = [ "network error" ]
  /\ navigations (trace (run failing 0 (PlanTrip.handleSaveTrip tokyo_form)
                             tokyo_form)) = [].
Proof.
  apply (proj2 (proj2 (save_trip_keeps_form failing 0 tokyo_form))
               alice (mkError "network error")).
  - repeat split; discriminate.
  - reflexivity.
  - reflexivity.
Defined.

(* ================================================================== *)
(** * Further properties: the Home page *)

(** X16: the Home page tracks the session it is told about.  After the
    session check resolves, and after every session-change callback, the
    [user] state is the user of the reported session (none without a
    session), and the page navigates to ["/auth"] exactly when there is no
    session.  The session check also clears [loading]; the callback never
    touches it.  If the session check is rejected nothing happens at all:
    no notification, no navigation, and the page stays as it was. *)
Theorem home_tracks_session (env : environment) (n : nat) (st : Index.State) :
  (forall session,
      env n AuthGetSession = Fulfilled session ->
      final (run env n Index.checkSession st)
      = Index.mkState (Index.session_user session) false
      /\ navigations (trace (run env n Index.checkSession st))
         = match session with None => ["/auth"] | Some _ => [] end)
  /\ (forall e,
         env n AuthGetSession = Rejected e ->
         final (run env n Index.checkSession st) = st
         /\ trace (run env n Index.checkSession st) = [ Called AuthGetSession ]
         /\ result (run env n Index.checkSession st) = Uncaught e)
  /\ (forall session,
         final (run env n (Index.onAuthStateChange session) st)
         = Index.mkState (Index.session_user session) (Index.loading st)
         /\ trace (run env n (Index.onAuthStateChange session) st)
            = match session with
              | None => [ Did (Navigate "/auth") ]
              | Some _ => []
              end).
Proof.
  split; [| split].
  - intros session E. unfold Index.checkSession. simpl. rewrite E.
    destruct session; split; reflexivity.
  - intros e E. unfold Index.checkSession. simpl. rewrite E. repeat split.
  - intros session. destruct session; split; reflexivity.
Qed.

(** X16 (witness): the Home page mounted by Alice, and mounted signed out. *)
Lemma home_tracks_session_witness :
  final (run signed_in 0 Index.checkSession Index.initial)
  = Index.mkState (Some alice) false
  /\ navigations (trace (run signed_out 0 Index.checkSession Index.initial))
     = ["/auth"].
Proof.
  split.
  - apply (proj1 (home_tracks_session signed_in 0 Index.initial)
                 (Some signed_in_session) eq_refl).
  - apply (proj1 (home_tracks_session signed_out 0 Index.initial) None eq_refl).
Defined.

(* ================================================================== *)
(** * Further properties: deletes composed *)

Lemma without_id_removes {t : Table.t} (id : string) (l : list (Table.row t)) :
  ~ In id (ids (without_id id l)).
Proof.
  unfold ids, without_id. rewrite in_map_iff. intros (x & E & H).
  apply filter_In in H. destruct H as [_ H].
  apply negb_true_iff, String.eqb_neq in H. contradiction.
Qed.

Lemma without_id_comm {t : Table.t} (a b : string) (l : list (Table.row t)) :
  without_id a (without_id b l) = without_id b (without_id a l).
Proof.
  unfold without_id. induction l as [|x l IH]; simpl; [reflexivity|].
  destruct (Table.row_id x =? b)%string eqn:B;
    destruct (Table.row_id x =? a)%string eqn:A; simpl;
    rewrite ?A, ?B; simpl; now rewrite IH.
Qed.

Lemma delete_success (p : list_page) (env : environment) (n : nat)
      (st : list_state p) (id : string) :
  env n (Delete (table_of p) "id" id) = Fulfilled None ->
  final (run env n (delete p st id) st) = with_items p (without_id id (items p st)) st.
Proof.
  intros E. destruct p; simpl in *;
    [ unfold Trips.deleteTrip | unfold Diary.deleteEntry
    | unfold Discover.deleteDestination ]; simpl; rewrite E; reflexivity.
Qed.

Lemma items_with_items (p : list_page) (l : list (Table.row (table_of p)))
      (st : list_state p) :
  items p (with_items p l st) = l.
Proof. destruct p; reflexivity. Qed.

(** X17: successful deletes compose on the in-memory list.  After a delete
    no item with that id is left and only the list has changed; deleting
    the same id again changes nothing; and two deletes give the same list
    in either order. *)
Theorem deletes_compose (p : list_page) (env : environment) (st : list_state p)
        (a b : string) (n m : nat) :
  env n (Delete (table_of p) "id" a) = Fulfilled None ->
  env m (Delete (table_of p) "id" a) = Fulfilled None ->
  env n (Delete (table_of p) "id" b) = Fulfilled None ->
  env m (Delete (table_of p) "id" b) = Fulfilled None ->
  let after_a := final (run env n (delete p st a) st) in
  let after_b := final (run env n (delete p st b) st) in
  after_a = with_items p (without_id a (items p st)) st
  /\ ~ In a (ids (items p after_a))
  /\ final (run env m (delete p after_a a) after_a) = after_a
  /\ final (run env m (delete p after_a b) after_a)
     = final (run env m (delete p after_b a) after_b).
Proof.
  intros Na Ma Nb Mb after_a after_b.
  assert (A : after_a = with_items p (without_id a (items p st)) st)
    by (apply delete_success; exact Na).
  assert (B : after_b = with_items p (without_id b (items p st)) st)
    by (apply delete_success; exact Nb).
  split; [exact A|]. split; [| split].
  - rewrite A, items_with_items. apply without_id_removes.
  - rewrite (@delete_success p env m after_a a Ma), A, items_with_items.
    rewrite (@without_id_absent _ a _ (@without_id_removes _ a (items p st))).
    destruct p; reflexivity.
  - rewrite (@delete_success p env m after_a b Mb),
            (@delete_success p env m after_b a Ma), A, B, !items_with_items.
    rewrite without_id_comm. destruct p; reflexivity.
Qed.

(** X17 (witness): both diary entries deleted, in either order. *)
Lemma deletes_compose_witness :
  Diary.entries
    (final (run signed_in 1
                (Diary.deleteEntry
                   (final (run signed_in 0 (Diary.deleteEntry diary_with_two "e-1")
                               diary_with_two)) "e-2")
                (final (run signed_in 0 (Diary.deleteEntry diary_with_two "e-1")
                            diary_with_two))))
  = Diary.entries
      (final (run signed_in 1
                  (Diary.deleteEntry
                     (final (run signed_in 0 (Diary.deleteEntry diary_with_two "e-2")
                                 diary_with_two)) "e-1")
                  (final (run signed_in 0 (Diary.deleteEntry diary_with_two "e-2")
                              diary_with_two)))).
Proof.
  destruct (@deletes_compose ListDiary signed_in diary_with_two "e-1" "e-2"
                             0%nat 1%nat eq_refl eq_refl eq_refl eq_refl)
    as (_ & _ & _ & C).
  exact (f_equal Diary.entries C).
Defined.

(* ================================================================== *)
(** * Further properties: the day count and the calendar *)

Lemma day_number_strict (a b : Date.civil) :
  Date.valid a = true -> Date.valid b = true -> strictly_before a b ->
  Date.day_number a < Date.day_number b.
Proof.
  intros Va Vb L. apply valid_bounds in Va, Vb.
  destruct Va as [Ma Da], Vb as [Mb Db].
  unfold Date.day_number.
  destruct L as [Y|(Y & [M|(M & D)])].
  - pose proof (@days_before_year_gap _ _ Y) as G.
    pose proof (@day_of_year_bound (Date.year a) _ _ Ma (proj2 Da)) as B.
    pose proof (@days_before_month_nonneg (Date.year b) (Date.month b) Mb) as P.
    destruct (Date.is_leap (Date.year a)); lia.
  - rewrite Y.
    pose proof (@days_before_month_step (Date.year b) (Date.month a) ltac:(lia)) as S.
    pose proof (@days_before_month_mono (Date.year b) (Date.month a + 1)
                  (Date.month b) ltac:(lia) ltac:(lia) ltac:(lia)) as P.
    rewrite Y in Da. lia.
  - rewrite Y, M. lia.
Qed.

Lemma calendar_trichotomy (a b : Date.civil) :
  strictly_before a b \/ a = b \/ strictly_before b a.
Proof.
  destruct a as [ya ma da], b as [yb mb db]. unfold strictly_before. simpl.
  destruct (Z.lt_trichotomy ya yb) as [H|[H|H]]; [tauto| |tauto].
  destruct (Z.lt_trichotomy ma mb) as [K|[K|K]]; [tauto| |right; right; lia].
  destruct (Z.lt_trichotomy da db) as [J|[J|J]]; [tauto| |right; right; lia].
  right. left. now subst.
Qed.

Lemma requested_invoke (tr : list event) (fn : string) (body : jsobject) :
  requests tr = [ FunctionsInvoke fn body ] -> existsb is_invoke tr = true.
Proof.
  induction tr as [|[r|a] tr IH]; simpl; intros H; [discriminate| |auto].
  inversion H; subst. reflexivity.
Qed.

(** X18: on two date strings the sign of the day count is the calendar
    order of the dates: it is positive exactly when the end date is
    strictly after the start date, and zero exactly when the two dates are
    the same day.  Hence a filled form is sent to the recommendation
    function exactly when its end date is strictly after its start date. *)
Theorem day_count_follows_calendar (env : environment) (n : nat)
        (st : PlanTrip.State) (s e : Date.civil) :
  Date.parse (PlanTrip.startDate st) = Some s ->
  Date.parse (PlanTrip.endDate st) = Some e ->
  (positive (PlanTrip.calculateDays st) <-> strictly_before s e)
  /\ (PlanTrip.calculateDays st = Num 0 <-> s = e)
  /\ (recommendation_form_filled st ->
      (existsb is_invoke
               (trace (run env n (PlanTrip.handleGetRecommendations st) st)) = true
       <-> strictly_before s e)).
Proof.
  intros Hs He. rewrite (calculateDays_dates st Hs He).
  pose proof (parse_valid _ Hs) as Vs. pose proof (parse_valid _ He) as Ve.
  assert (P : 0 < Date.day_number e - Date.day_number s <-> strictly_before s e).
  { split.
    - intros H. destruct (calendar_trichotomy s e) as [L|[L|L]]; [exact L| |].
      + subst. lia.
      + pose proof (day_number_strict Ve Vs L). lia.
    - intros L. pose proof (day_number_strict Vs Ve L). lia. }
  split; [exact P|]. split.
  - split.
    + intros H. inversion H as [H'].
      destruct (calendar_trichotomy s e) as [L|[L|L]]; [|exact L|].
      * pose proof (day_number_strict Vs Ve L). lia.
      * pose proof (day_number_strict Ve Vs L). lia.
    + intros ->. f_equal. lia.
  - intros F. rewrite <- P. split.
    + intros H.
      destruct (Z.leb_spec (Date.day_number e - Date.day_number s) 0) as [L|L];
        [|exact L].
      exfalso.
      destruct (@recommendations_rejected env n st) as [_ R].
      { do 4 right. rewrite (calculateDays_dates st Hs He). simpl.
        now apply Z.leb_le. }
      congruence.
    + intros H.
      assert (D : js_le0 (PlanTrip.calculateDays st) = false).
      { rewrite (calculateDays_dates st Hs He). simpl. now apply Z.leb_gt. }
      pose proof (@recommendations_sent env n st F D) as R.
      apply requested_invoke with (1 := R).
Qed.

(** X18 (witness): the Tokyo form, whose end date is four days after its
    start date. *)
Lemma day_count_follows_calendar_witness :
  positive (PlanTrip.calculateDays tokyo_form)
  /\ existsb is_invoke
             (trace (run signed_in 0 (PlanTrip.handleGetRecommendations tokyo_form)
                         tokyo_form)) = true.
Proof.
  destruct (@day_count_follows_calendar signed_in 0%nat tokyo_form
              (Date.mkCivil 2024 1 1) (Date.mkCivil 2024 1 5) eq_refl eq_refl)
    as (P & _ & S).
  assert (L : strictly_before (Date.mkCivil 2024 1 1) (Date.mkCivil 2024 1 5)).
  { right. split; [reflexivity|]. right. split; [reflexivity|]. simpl. lia. }
  split.
  - apply P. exact L.
  - apply S; [repeat split; discriminate | exact L].
Defined.

(* ================================================================== *)
(** * Further properties: what no handler does *)

(** Discards the answers that [rejects_with_errors] excludes. *)
Ltac excluded W :=
  match goal with
  | E : _ = Rejected ThrownNull |- _ =>
      let K := fresh "K" in destruct (W _ _ _ E) as [? K]; discriminate K
  | E : _ = Rejected ThrownUndefined |- _ =>
      let K := fresh "K" in destruct (W _ _ _ E) as [? K]; discriminate K
  end.

Lemma guarded_handlers_return (env : environment) (c : completion unit) :
  rejects_with_errors env -> guarded_run env c -> c = Returned tt.
Proof.
  intros W H. destruct H as [p n st|p n st id|n st|n st|n st|n st].
  - apply fetch_returns.
  - destruct p; simpl;
      [ unfold Trips.deleteTrip | unfold Diary.deleteEntry
      | unfold Discover.deleteDestination ]; answers; reflexivity.
  - unfold Diary.createEntry, Diary.fetchEntries.
    destruct (falsy (Diary.title st) || falsy (Diary.content st));
      answers; first [reflexivity | excluded W].
  - unfold Discover.saveDestination, Discover.fetchDestinations.
    destruct (falsy (Discover.name st) || falsy (Discover.location st));
      answers; first [reflexivity | excluded W].
  - unfold PlanTrip.handleGetRecommendations.
    destruct (falsy (PlanTrip.destination st) || falsy (PlanTrip.budget st)
              || falsy (PlanTrip.travelType st)
              || (List.length (PlanTrip.selectedInterests st) =? 0)%nat);
      [reflexivity|].
    cbv zeta. destruct (js_le0 (PlanTrip.calculateDays st)); [reflexivity|].
    answers; first [reflexivity | excluded W].
  - unfold PlanTrip.handleSaveTrip.
    destruct (falsy (PlanTrip.destination st) || falsy (PlanTrip.startDate st)
              || falsy (PlanTrip.endDate st) || falsy (PlanTrip.budget st));
      [reflexivity|].
    answers; first [reflexivity | excluded W].
Qed.

Lemma delete_returns (p : list_page) (env : environment) (n : nat)
      (st : list_state p) (id : string) :
  result (run env n (delete p st id) st) = Returned tt.
Proof.
  destruct p; simpl;
    [ unfold Trips.deleteTrip | unfold Diary.deleteEntry
    | unfold Discover.deleteDestination ]; answers; reflexivity.
Qed.

(** X19: which failures are caught locally.  The List routines and the
    deletes, whose [catch] blocks do not read the caught value, return
    normally whatever the collaborators answer.  The create dialogs, Get
    Recommendations and Save Trip return normally as long as no awaited call
    is rejected with [null] or [undefined]; when their first awaited call is
    rejected with [null] or [undefined], reading [error.message] in the
    [catch] throws a [TypeError] that escapes the handler, and no
    notification is shown (Get Recommendations and Save Trip still clear
    [loading]).  Sign-out has no [try]/[catch]: a rejected sign-out escapes
    and nothing is shown. *)
Theorem failures_are_caught_locally (env : environment) :
  (forall (p : list_page) (n : nat) (st : list_state p),
      result (run env n (fetch p) st) = Returned tt
      /\ forall id, result (run env n (delete p st id) st) = Returned tt)
  /\ (rejects_with_errors env ->
      forall c, guarded_run env c -> c = Returned tt)
  /\ (forall (n : nat) (v : thrown),
         v = ThrownNull \/ v = ThrownUndefined ->
         (forall st : PlanTrip.State,
             save_form_filled st ->
             env n AuthGetUser = Rejected v ->
             (exists e, result (run env n (PlanTrip.handleSaveTrip st) st)
                        = Uncaught (Thrown e))
             /\ error_toasts (trace (run env n (PlanTrip.handleSaveTrip st) st)) = []
             /\ PlanTrip.loading (final (run env n (PlanTrip.handleSaveTrip st) st))
                = false)
         /\ (forall st : PlanTrip.State,
                recommendation_form_filled st ->
                positive (PlanTrip.calculateDays st) ->
                env n (FunctionsInvoke "travel-recommendations"
                         (PlanTrip.recommendation_body st
                                                       (PlanTrip.calculateDays st)))
                = Rejected v ->
                (exists e,
                    result (run env n (PlanTrip.handleGetRecommendations st) st)
                    = Uncaught (Thrown e))
                /\ error_toasts
                     (trace (run env n (PlanTrip.handleGetRecommendations st) st))
                   = []
                /\ PlanTrip.loading
                     (final (run env n (PlanTrip.handleGetRecommendations st) st))
                   = false)
         /\ (forall st : Diary.State,
                diary_fields_filled st ->
                env n AuthGetUser = Rejected v ->
                (exists e, result (run env n (Diary.createEntry st) st)
                           = Uncaught (Thrown e))
                /\ error_toasts (trace (run env n (Diary.createEntry st) st)) = [])
         /\ (forall st : Discover.State,
                discover_fields_filled st ->
                env n AuthGetUser = Rejected v ->
                (exists e, result (run env n (Discover.saveDestination st) st)
                           = Uncaught (Thrown e))
                /\ error_toasts
                     (trace (run env n (Discover.saveDestination st) st)) = []))
  /\ (forall n st v,
         env n AuthSignOut = Rejected v ->
         result (run env n Index.handleSignOut st) = Uncaught v
         /\ trace (run env n Index.handleSignOut st) = [ Called AuthSignOut ]).
Proof.
  split; [| split; [| split]].
  - intros p n st. split; [apply fetch_returns | intros id; apply delete_returns].
  - intros W c H. exact (@guarded_handlers_return env c W H).
  - intros n v V. split; [| split; [| split]].
    + intros st F E. unfold PlanTrip.handleSaveTrip.
      rewrite (save_check_passes F). simpl. rewrite E.
      destruct V; subst; simpl; repeat split; eexists; reflexivity.
    + intros st F P E.
      assert (D : js_le0 (PlanTrip.calculateDays st) = false).
      { destruct (PlanTrip.calculateDays st); simpl in *; [reflexivity|].
        now apply Z.leb_gt. }
      apply field_check_passes in F.
      unfold PlanTrip.handleGetRecommendations. rewrite F. cbv zeta. rewrite D.
      simpl. rewrite E.
      destruct V; subst; simpl; repeat split; eexists; reflexivity.
    + intros st [T C] E. apply falsy_false in T, C. unfold Diary.createEntry.
      rewrite T, C. simpl. rewrite E.
      destruct V; subst; simpl; repeat split; eexists; reflexivity.
    + intros st [T C] E. apply falsy_false in T, C.
      unfold Discover.saveDestination. rewrite T, C. simpl. rewrite E.
      destruct V; subst; simpl; repeat split; eexists; reflexivity.
  - intros n st v E. unfold Index.handleSignOut. simpl. rewrite E.
    split; reflexivity.
Qed.

(** X19 (witness): every call rejected with [null].  A delete still
    returns, while Save Trip on the Tokyo form shows nothing. *)
Lemma failures_are_caught_locally_witness :
  result (run rejecting_null 0 (Diary.deleteEntry diary_with_two "e-1")
              diary_with_two) = Returned tt
  /\ error_toasts (trace (run rejecting_null 0 (PlanTrip.handleSaveTrip tokyo_form)
                               tokyo_form)) = []
  /\ result (run failing 0 (PlanTrip.handleSaveTrip tokyo_form) tokyo_form)
     = Returned tt.
Proof.
  split; [| split].
  - apply (proj2 (proj1 (failures_are_caught_locally rejecting_null)
                        ListDiary 0%nat diary_with_two)).
  - apply (proj1 (proj2 (proj2 (failures_are_caught_locally rejecting_null)))
                 0%nat ThrownNull (or_introl eq_refl)).
    + repeat split; discriminate.
    + reflexivity.
  - apply (proj1 (proj2 (failures_are_caught_locally failing))).
    + intros n r v E. destruct r; discriminate E.
    + apply (guarded_save_trip failing 0 tokyo_form).
Defined.

Ltac one_navigation :=
  first [ left; reflexivity
        | right; left; reflexivity
        | right; right; left; reflexivity ].

(** X20: a handler run navigates at most once.  It ends with no
    navigation, with one navigation to ["/auth"], with one navigation to
    ["/trips"], or it is a click on one of the page's link buttons, which
    does nothing but navigate to the button's path. *)
Theorem handlers_navigate_at_most_once (env : environment) (tr : list event) :
  handler_trace env tr ->
  navigations tr = [] \/ navigations tr = ["/auth"] \/ navigations tr = ["/trips"]
  \/ exists p path, In path (links p) /\ tr = [ Did (Navigate path) ].
Proof.
  intros H.
  destruct H as [p n st|n st s|n st|n st i|n st|n st|n st|n st|p n st id
                 |p n st path L|p n st f].
  - destruct p; simpl;
      [ unfold Index.onMount, Index.checkSession
      | left; reflexivity
      | unfold Trips.onMount, Trips.fetchTrips
      | unfold Diary.onMount, Diary.fetchEntries
      | unfold Discover.onMount, Discover.fetchDestinations ];
      answers; one_navigation.
  - destruct s; one_navigation.
  - unfold Index.handleSignOut. answers; one_navigation.
  - left. reflexivity.
  - unfold PlanTrip.handleGetRecommendations.
    destruct (falsy (PlanTrip.destination st) || falsy (PlanTrip.budget st)
              || falsy (PlanTrip.travelType st)
              || (List.length (PlanTrip.selectedInterests st) =? 0)%nat);
      [left; reflexivity|].
    cbv zeta. destruct (js_le0 (PlanTrip.calculateDays st)); [left; reflexivity|].
    answers; one_navigation.
  - unfold PlanTrip.handleSaveTrip.
    destruct (falsy (PlanTrip.destination st) || falsy (PlanTrip.startDate st)
              || falsy (PlanTrip.endDate st) || falsy (PlanTrip.budget st));
      [left; reflexivity|].
    answers; one_navigation.
  - unfold Diary.createEntry, Diary.fetchEntries.
    destruct (falsy (Diary.title st) || falsy (Diary.content st));
      answers; one_navigation.
  - unfold Discover.saveDestination, Discover.fetchDestinations.
    destruct (falsy (Discover.name st) || falsy (Discover.location st));
      answers; one_navigation.
  - pose proof (delete_run p env n st id) as R. cbv zeta in R.
    destruct (env n (Delete (table_of p) "id" id)) as [[e|]|e];
      destruct R as [T _]; rewrite T; left; reflexivity.
  - right. right. right. exists p, path. split; [exact L | reflexivity].
  - left. reflexivity.
Qed.

(** X20 (witness): creating a diary entry as the session is lost, and the
    "New Trip" button of the Trips page. *)
Lemma handlers_navigate_at_most_once_witness :
  (navigations (trace (run session_lost_after_two 0 (Diary.createEntry diary_draft)
                           diary_draft)) = []
   \/ navigations (trace (run session_lost_after_two 0
                              (Diary.createEntry diary_draft) diary_draft))
      = ["/auth"]
   \/ navigations (trace (run session_lost_after_two 0
                              (Diary.createEntry diary_draft) diary_draft))
      = ["/trips"]
   \/ exists p path,
        In path (links p)
        /\ trace (run session_lost_after_two 0 (Diary.createEntry diary_draft)
                      diary_draft) = [ Did (Navigate path) ])
  /\ handler_trace signed_in [ Did (Navigate "/plan-trip") ].
Proof.
  split.
  - apply (@handlers_navigate_at_most_once session_lost_after_two).
    apply trace_create_entry.
  - apply (@trace_link signed_in TripsPage 0%nat Trips.initial "/plan-trip").
    simpl. tauto.
Defined.
